(** * Calendrier-CoZetik: the calendar parser ([src/lib/calendarParser.ts])

    A shallow embedding of the multi-format calendar parser and of the
    properties its specification states about it.

    Conventions of the embedding.
    - A JavaScript string is a [string] holding its UTF-8 encoding; substring
      search and splitting on an ASCII separator agree with the UTF-16
      operations of the source on well-formed text.
    - A [Date] is [option Z]: [None] is the Invalid Date, [Some t] carries the
      time value [t] in milliseconds since the epoch (UTC).  Time values are
      unbounded integers.  Local time is UTC shifted by a constant offset
      [LocalTZA] (no daylight-saving transitions).
    - A JavaScript number that reaches the parser is a rational; [None] stands
      for NaN and the infinities where the source converts text to a number.
    - What the platform and the libraries (ical.js, ExcelJS) compute is
      gathered in the class [Host]; every theorem holds for every host.
    - A library call that may throw yields an [Outcome] or a variant with a
      throwing case, and the [catch] blocks of the source are the branches on
      it; the parser's own code does not throw on the values modelled here.
    - Identifiers come from the clock and a random source: the host hands out
      [freshId n] for the event created when [n] events exist already.
    - Console output is left out. *)

From Stdlib Require Import ZArith QArith Qround List Bool Lia Ascii String.
From Stdlib Require Import Sorted Permutation.
Import ListNotations.

Local Open Scope string_scope.
Local Open Scope Z_scope.

(* ===================================================================== *)
(** ** JavaScript strings *)
(* ===================================================================== *)

Module JSString.

(** [bytes l] is the string whose bytes are the numbers of [l]. *)
Definition bytes (l : list nat) : string :=
  fold_right (fun n s => String (ascii_of_nat n) s) EmptyString l.

(** [s.startsWith(p)] *)
Fixpoint startsWith (s p : string) : bool :=
  match p, s with
  | EmptyString, _ => true
  | String _ _, EmptyString => false
  | String c p', String d s' => Ascii.eqb c d && startsWith s' p'
  end.

(** [s.includes(sub)] *)
Fixpoint includes (s sub : string) : bool :=
  startsWith s sub ||
  match s with
  | EmptyString => false
  | String _ s' => includes s' sub
  end.

(** [s.split(sep)] for a one-character separator: never the empty array. *)
Fixpoint split (sep : ascii) (s : string) : list string :=
  match s with
  | EmptyString => [EmptyString]
  | String c s' =>
      if Ascii.eqb c sep then EmptyString :: split sep s'
      else match split sep s' with
           | [] => [String c EmptyString]
           | h :: t => String c h :: t
           end
  end.

Fixpoint rev_acc (s acc : string) : string :=
  match s with
  | EmptyString => acc
  | String c s' => rev_acc s' (String c acc)
  end.

Definition rev (s : string) : string := rev_acc s EmptyString.

Fixpoint drop (n : nat) (s : string) : string :=
  match n, s with
  | O, _ => s
  | S _, EmptyString => EmptyString
  | S n', String _ s' => drop n' s'
  end.

(** WhiteSpace and LineTerminator code points of ECMAScript, in UTF-8. *)
Definition whitespace : list string :=
  map bytes
    [ [9]; [10]; [11]; [12]; [13]; [32]; [194; 160]; [225; 154; 128];
      [226; 128; 128]; [226; 128; 129]; [226; 128; 130]; [226; 128; 131];
      [226; 128; 132]; [226; 128; 133]; [226; 128; 134]; [226; 128; 135];
      [226; 128; 136]; [226; 128; 137]; [226; 128; 138];
      [226; 128; 168]; [226; 128; 169]; [226; 128; 175];
      [226; 129; 159]; [227; 128; 128]; [239; 187; 191] ]%nat.

Definition firstPrefix (cands : list string) (s : string) : option string :=
  find (startsWith s) cands.

Fixpoint stripLeading (cands : list string) (fuel : nat) (s : string) : string :=
  match fuel with
  | O => s
  | S fuel' =>
      match firstPrefix cands s with
      | Some w =>
          match w with
          | EmptyString => s
          | String _ _ => stripLeading cands fuel' (drop (String.length w) s)
          end
      | None => s
      end
  end.

Definition trimStart (s : string) : string :=
  stripLeading whitespace (String.length s) s.

Definition trimEnd (s : string) : string :=
  rev (stripLeading (map rev whitespace) (String.length s) (rev s)).

(** [s.trim()] *)
Definition trim (s : string) : string := trimEnd (trimStart s).

Definition isEmpty (s : string) : bool :=
  match s with EmptyString => true | String _ _ => false end.

(** Decimal rendering of a row number inside a template literal. *)
Fixpoint digits (fuel : nat) (n : nat) (acc : string) : string :=
  match fuel with
  | O => acc
  | S fuel' =>
      let d := String (ascii_of_nat (48 + Nat.modulo n 10)) acc in
      match Nat.div n 10 with
      | O => d
      | q => digits fuel' q d
      end
  end.

Definition ofNat (n : nat) : string := digits (S n) n EmptyString.

Definition join (sep : string) (l : list string) : string :=
  match l with
  | [] => EmptyString
  | h :: t => fold_left (fun acc x => acc ++ sep ++ x) t h
  end.

End JSString.

Import JSString.


(* ===================================================================== *)
(** ** Time values and calendar arithmetic (ECMA-262, Date objects) *)
(* ===================================================================== *)

Module JSTime.

Definition msPerDay : Z := 24 * 60 * 60 * 1000.

Definition Day (t : Z) : Z := t / msPerDay.

Definition TimeWithinDay (t : Z) : Z := t mod msPerDay.

Definition isLeapYear (y : Z) : bool :=
  (y mod 4 =? 0) && (negb (y mod 100 =? 0) || (y mod 400 =? 0)).

Definition DaysInYear (y : Z) : Z := if isLeapYear y then 366 else 365.

(** Day number of the first day of year [y]. *)
Definition DayFromYear (y : Z) : Z :=
  365 * (y - 1970) + (y - 1969) / 4 - (y - 1901) / 100 + (y - 1601) / 400.

(** The year a day number falls in: the largest [y] with
    [DayFromYear y <= d], found from the mean-year estimate. *)
Definition YearFromDay (d : Z) : Z :=
  let y := 1970 + (d * 400) / 146097 in
  if DayFromYear (y + 1) <=? d then y + 1
  else if DayFromYear y <=? d then y
  else y - 1.

Definition YearFromTime (t : Z) : Z := YearFromDay (Day t).

Definition InLeapYear (t : Z) : bool := isLeapYear (YearFromTime t).

Definition DayWithinYear (t : Z) : Z := Day t - DayFromYear (YearFromTime t).

(** Day within the year on which month [m] (0 = January) starts. *)
Definition monthStart (leap : bool) (m : Z) : Z :=
  let l := if leap then 1 else 0 in
  match m with
  | 0 => 0
  | 1 => 31
  | 2 => 59 + l
  | 3 => 90 + l
  | 4 => 120 + l
  | 5 => 151 + l
  | 6 => 181 + l
  | 7 => 212 + l
  | 8 => 243 + l
  | 9 => 273 + l
  | 10 => 304 + l
  | 11 => 334 + l
  | _ => 365 + l
  end.

Definition monthOfDayInYear (leap : bool) (d : Z) : Z :=
  if d <? monthStart leap 1 then 0
  else if d <? monthStart leap 2 then 1
  else if d <? monthStart leap 3 then 2
  else if d <? monthStart leap 4 then 3
  else if d <? monthStart leap 5 then 4
  else if d <? monthStart leap 6 then 5
  else if d <? monthStart leap 7 then 6
  else if d <? monthStart leap 8 then 7
  else if d <? monthStart leap 9 then 8
  else if d <? monthStart leap 10 then 9
  else if d <? monthStart leap 11 then 10
  else 11.

Definition MonthFromTime (t : Z) : Z :=
  monthOfDayInYear (InLeapYear t) (DayWithinYear t).

Definition DateFromTime (t : Z) : Z :=
  DayWithinYear t - monthStart (InLeapYear t) (MonthFromTime t) + 1.

Definition MakeTime (hour min sec ms : Z) : Z :=
  hour * 3600000 + min * 60000 + sec * 1000 + ms.

(** [MakeDay]: months outside 0..11 carry into the year, any day count is
    accepted and counted from the first of the month. *)
Definition MakeDay (year month date : Z) : Z :=
  let ym := year + month / 12 in
  let mn := month mod 12 in
  DayFromYear ym + monthStart (isLeapYear ym) mn + date - 1.

Definition MakeDate (day time : Z) : Z := day * msPerDay + time.

(** [ToIntegerOrInfinity] on a finite number: truncation towards zero. *)
Definition ToIntegerOrInfinity (q : Q) : Z := Z.quot (Qnum q) (Zpos (Qden q)).

(** The civil date (year, month 1..12, day) of a local time value. *)
Definition civil (t : Z) : Z * Z * Z :=
  (YearFromTime t, MonthFromTime t + 1, DateFromTime t).

End JSTime.

Import JSTime.

(** A [Date] object: [None] is the Invalid Date. *)
Definition JSDate : Type := option Z.

(** [isNaN(d.getTime())] *)
Definition isInvalid (d : JSDate) : bool :=
  match d with None => true | Some _ => false end.

(** [a < b] on dates: false as soon as one side is invalid. *)
Definition dateLt (a b : JSDate) : bool :=
  match a, b with
  | Some x, Some y => x <? y
  | _, _ => false
  end.

(** What a call that may throw yields. *)
Inductive Outcome (A : Type) : Type :=
| Throws (message : string)
| Returns (a : A).

Arguments Throws {A} message.
Arguments Returns {A} a.

(* ===================================================================== *)
(** ** The data model ([types.ts]) *)
(* ===================================================================== *)

Inductive AvailabilityStatus : Type :=
| available | unavailable | school | vacation | company.

Record CalendarEvent : Type := {
  id : string;
  memberId : string;
  startDate : JSDate;
  endDate : JSDate;
  status : AvailabilityStatus;
  note : option string;
  isImported : bool
}.

Record CalendarParseResult : Type := {
  success : bool;
  events : list CalendarEvent;
  errors : option (list string);
  warnings : option (list string)
}.

(** [warnings.length > 0 ? warnings : undefined] *)
Definition optWarnings (warnings : list string) : option (list string) :=
  match warnings with [] => None | _ :: _ => Some warnings end.

(* ===================================================================== *)
(** ** Library values: ExcelJS cells and sheets, ical.js events, files *)
(* ===================================================================== *)

Inductive RichSegment : Type :=
| SegString (s : string)
| SegText (text : string)
| SegOther.

Inductive FormulaResult : Type :=
| ResNumber (n : Q)
| ResString (s : string)
| ResBool (b : bool)
| ResDate (d : JSDate)
| ResError (e : string).

Inductive CellValue : Type :=
| VNull
| VNumber (n : Q)
| VString (s : string)
| VBool (b : bool)
| VDate (d : JSDate)
| VRichText (richText : list RichSegment)
| VFormula (result : option FormulaResult)
| VHyperlink (text : string)
| VError (e : string).

(** A cell: its [value] and the [text] ExcelJS renders for it. *)
Record Cell : Type := { value : CellValue; text : string }.

Definition emptyCell : Cell := {| value := VNull; text := EmptyString |}.

(** A row lists its cells by column, column 1 first; a worksheet lists its
    rows, row 1 first. *)
Definition Row : Type := list Cell.
Definition Worksheet : Type := list Row.

Definition getCell (row : Row) (colIndex : nat) : Cell :=
  match colIndex with
  | O => emptyCell
  | S i => nth i row emptyCell
  end.

Definition getRow (worksheet : Worksheet) (rowNum : nat) : Row :=
  match rowNum with
  | O => []
  | S i => nth i worksheet []
  end.

Definition rowCount (worksheet : Worksheet) : nat := List.length worksheet.

Definition isNull (v : CellValue) : bool :=
  match v with VNull => true | _ => false end.

Definition hasValues (row : Row) : bool :=
  existsb (fun c => negb (isNull (value c))) row.

(** [row.eachCell]: the non-empty cells with their column numbers. *)
Fixpoint eachCellFrom (colNumber : nat) (row : Row) : list (Cell * nat) :=
  match row with
  | [] => []
  | c :: row' =>
      if isNull (value c) then eachCellFrom (S colNumber) row'
      else (c, colNumber) :: eachCellFrom (S colNumber) row'
  end.

Definition eachCell (row : Row) : list (Cell * nat) := eachCellFrom 1 row.

(** ical.js: [toJSDate()] of an [ICAL.Time] may throw. *)
Inductive ICALTime : Type :=
| TimeThrows
| TimeJS (d : JSDate).

Record ICALEvent : Type := {
  ev_startDate : option ICALTime;
  ev_endDate : option ICALTime;
  ev_summary : option string
}.

(** A VEVENT component: wrapping or reading it may throw, in which case only
    its raw summary property is consulted. *)
Inductive VEventComponent : Type :=
| BrokenComponent (summary : option string)
| EventComponent (event : ICALEvent).

Inductive ICALDocument : Type :=
| ParseThrows (message : string)
| ComponentThrows (message : string)
| VEvents (vevents : list VEventComponent).

Record File : Type := { name : string; content : string }.

(** The platform and the libraries. *)
Class Host : Type := {
  toLowerCase : string -> string;
  toNumber : string -> option Q;
  numberToString : Q -> string;
  dateToString : JSDate -> string;
  toLocaleDateString : JSDate -> string;
  parseDate : string -> JSDate;
  LocalTZA : Z;
  freshId : nat -> string;
  ICAL_parse : string -> ICALDocument;
  XLSX_load : string -> Outcome (list Worksheet)
}.

(* ===================================================================== *)
(** ** The parser *)
(* ===================================================================== *)

Section Parser.

Context {host : Host}.

(** *** Date objects in local time *)

Definition LocalTime (t : Z) : Z := t + LocalTZA.

Definition UTC (t : Z) : Z := t - LocalTZA.

(** [new Date(year, month, date)] *)
Definition Date_ymd (year month date : option Q) : JSDate :=
  match year, month, date with
  | Some y, Some m, Some dt =>
      let yi := ToIntegerOrInfinity y in
      let yr := if (0 <=? yi) && (yi <=? 99) then 1900 + yi else yi in
      Some (UTC (MakeDate
                   (MakeDay yr (ToIntegerOrInfinity m) (ToIntegerOrInfinity dt))
                   (MakeTime 0 0 0 0)))
  | _, _, _ => None
  end.

(** [new Date(value)] for a finite number *)
Definition Date_of_number (value : Q) : JSDate :=
  Some (ToIntegerOrInfinity value).

(** [d.getDate()] on a valid date *)
Definition getDate (t : Z) : Z := DateFromTime (LocalTime t).

(** [d.setDate(date)] on a valid date *)
Definition setDate (t : Z) (date : Z) : Z :=
  let lt := LocalTime t in
  UTC (MakeDate (MakeDay (YearFromTime lt) (MonthFromTime lt) date)
                (TimeWithinDay lt)).

(** [d.setHours(hour, min, sec, ms)] on a valid date *)
Definition setHours (t : Z) (hour min sec ms : Z) : Z :=
  UTC (MakeDate (Day (LocalTime t)) (MakeTime hour min sec ms)).

(** date-fns [startOfDay] and [endOfDay] *)
Definition startOfDay (d : JSDate) : JSDate :=
  option_map (fun t => setHours t 0 0 0 0) d.

Definition endOfDay (d : JSDate) : JSDate :=
  option_map (fun t => setHours t 23 59 59 999) d.

(** The local calendar day of a date. *)
Definition localDay (d : JSDate) : option (Z * Z * Z) :=
  option_map (fun t => civil (LocalTime t)) d.

(** The local time of day of a date, in milliseconds. *)
Definition localTimeOfDay (d : JSDate) : option Z :=
  option_map (fun t => TimeWithinDay (LocalTime t)) d.

(** *** Status detection, lines 37-82 *)

Definition detectStatusFromSummary (summary : string) : AvailabilityStatus :=
  let lowerSummary := toLowerCase summary in
  if includes lowerSummary "vacances"
     || includes lowerSummary "congé"
     || includes lowerSummary "conge"
  then vacation
  else if includes lowerSummary "école"
          || includes lowerSummary "ecole"
          || includes lowerSummary "cours"
          || includes lowerSummary "hetic"
          || includes lowerSummary "formation"
          || includes lowerSummary "étude"
          || includes lowerSummary "etude"
  then school
  else if includes lowerSummary "absent"
          || includes lowerSummary "indisponible"
  then unavailable
  else if includes lowerSummary "entreprise"
          || includes lowerSummary "disponible"
          || includes lowerSummary "travail"
          || includes lowerSummary "work"
  then available
  else school.

(** *** Spreadsheet helpers *)

(** A JavaScript [Map<string, number>]: entries in insertion order, one per
    key. *)
Definition ColumnMap : Type := list (string * nat).

Fixpoint Map_set (m : ColumnMap) (key : string) (v : nat) : ColumnMap :=
  match m with
  | [] => [(key, v)]
  | (k, w) :: m' =>
      if String.eqb k key then (k, v) :: m' else (k, w) :: Map_set m' key v
  end.

Fixpoint Map_get (m : ColumnMap) (key : string) : option nat :=
  match m with
  | [] => None
  | (k, w) :: m' => if String.eqb k key then Some w else Map_get m' key
  end.

Definition Map_keys (m : ColumnMap) : list string := map fst m.

(** Truthiness of a cell value. *)
Definition truthy (v : CellValue) : bool :=
  match v with
  | VNull => false
  | VNumber n => negb (Qeq_bool n 0)
  | VString s => negb (isEmpty s)
  | VBool b => b
  | _ => true
  end.

Definition objectString : string := "[object Object]".

(** [String(v)] *)
Definition JSString_of (v : CellValue) : string :=
  match v with
  | VNull => "null"
  | VNumber n => numberToString n
  | VString s => s
  | VBool b => if b then "true" else "false"
  | VDate d => dateToString d
  | _ => objectString
  end.

Definition String_of_result (r : FormulaResult) : string :=
  match r with
  | ResNumber n => numberToString n
  | ResString s => s
  | ResBool b => if b then "true" else "false"
  | ResDate d => dateToString d
  | ResError _ => objectString
  end.

Definition segmentText (segment : RichSegment) : string :=
  match segment with
  | SegString s => s
  | SegText t => t
  | SegOther => EmptyString
  end.

(** [cell.text || ''] *)
Definition cellTextOrEmpty (cell : Cell) : string := text cell.

(** [extractCellText], lines 518-549 *)
Definition extractCellText (cell : Cell) : string :=
  if negb (truthy (value cell)) then EmptyString
  else
    match value cell with
    | VString s => s
    | VNumber n => numberToString n
    | VDate d => toLocaleDateString d
    | VRichText richText =>
        String.concat EmptyString
          (filter (fun t => negb (isEmpty t)) (map segmentText richText))
    | VFormula (Some r) => String_of_result r
    | VHyperlink t =>
        if negb (isEmpty t) then t
        else if negb (isEmpty (text cell))
                && negb (String.eqb (text cell) objectString)
        then text cell
        else cellTextOrEmpty cell
    | VFormula None | VError _ =>
        if negb (isEmpty (text cell))
           && negb (String.eqb (text cell) objectString)
        then text cell
        else cellTextOrEmpty cell
    | VNull | VBool _ => cellTextOrEmpty cell
    end.

(** [getCellValue], lines 292-306; [undefined] is [VNull]. *)
Fixpoint getCellValue (row : Row) (possibleNames : list string)
    (columnMap : ColumnMap) : CellValue :=
  match possibleNames with
  | [] => VNull
  | name :: rest =>
      let normalizedName := trim (toLowerCase name) in
      match Map_get columnMap normalizedName with
      | Some colIndex => value (getCell row colIndex)
      | None => getCellValue row rest columnMap
      end
  end.

(** [excelDateToJSDate], lines 315-322 *)
Definition excelDateToJSDate (excelDate : Q) : JSDate :=
  match Date_ymd (Some (1899 # 1)%Q) (Some (11 # 1)%Q) (Some (30 # 1)%Q) with
  | Some excelEpoch =>
      let millisecondsPerDay := 24 * 60 * 60 * 1000 in
      Date_of_number
        (inject_Z excelEpoch + excelDate * inject_Z millisecondsPerDay)%Q
  | None => None
  end.

(** *** The weekly grid, lines 330-459 *)

Record WeekdayColumn : Type := {
  day : string;
  colIndex : nat;
  dayOffset : Z
}.

Definition dayMapping : list (string * Z) :=
  [ ("lu", 0); ("ma", 1); ("me", 2); ("je", 3); ("ve", 4); ("sa", 5);
    ("di", 6) ].

Fixpoint lookupDay (table : list (string * Z)) (colName : string) : option Z :=
  match table with
  | [] => None
  | (k, o) :: table' =>
      if String.eqb k colName then Some o else lookupDay table' colName
  end.

(** The loop of lines 353-358. *)
Fixpoint collectWeekdayColumns (entries : ColumnMap) : list WeekdayColumn :=
  match entries with
  | [] => []
  | (colName, colIndex) :: entries' =>
      match lookupDay dayMapping colName with
      | Some dayOffset =>
          {| day := colName; colIndex := colIndex; dayOffset := dayOffset |}
          :: collectWeekdayColumns entries'
      | None => collectWeekdayColumns entries'
      end
  end.

(** [Array.prototype.sort] with the comparator [a.dayOffset - b.dayOffset]:
    a stable ascending sort. *)
Fixpoint insertByOffset (x : WeekdayColumn) (l : list WeekdayColumn)
    : list WeekdayColumn :=
  match l with
  | [] => [x]
  | y :: l' =>
      if dayOffset x <=? dayOffset y then x :: y :: l'
      else y :: insertByOffset x l'
  end.

Fixpoint sortByOffset (l : list WeekdayColumn) : list WeekdayColumn :=
  match l with
  | [] => []
  | x :: l' => insertByOffset x (sortByOffset l')
  end.

Definition weekdayColumnsOf (columnMap : ColumnMap) : list WeekdayColumn :=
  sortByOffset (collectWeekdayColumns columnMap).

(** [Array.from(columnMap.entries()).find(pred)?.[1]] *)
Definition findColumn (pred : string -> bool) (columnMap : ColumnMap)
    : option nat :=
  option_map snd (find (fun e => pred (fst e)) columnMap).

(** The status of one weekday cell, lines 411-425. *)
Definition cellStatus (cellValue : string) : AvailabilityStatus :=
  if String.eqb cellValue "7" || String.eqb cellValue "7.00" then school
  else if includes (toLowerCase cellValue) "férié"
          || includes (toLowerCase cellValue) "ferie"
  then vacation
  else if includes (toLowerCase cellValue) "vacances"
          || includes (toLowerCase cellValue) "exam"
  then vacation
  else if includes (toLowerCase cellValue) "disponible" then available
  else if includes (toLowerCase cellValue) "indisponible" then unavailable
  else company.

Definition dquote : string := String (ascii_of_nat 34) EmptyString.

(** The event of one weekday cell, lines 402-436; the identifier is the one the
    platform hands out for the event count reached. *)
Definition weekdayEvent (memberId : string) (row : Row) (mondayDate : Z)
    (events : list CalendarEvent) (column : WeekdayColumn)
    : list CalendarEvent :=
  let cell := getCell row (colIndex column) in
  let cellValue := extractCellText cell in
  let currentDate := setDate mondayDate (getDate mondayDate + dayOffset column) in
  app events
  [ {| id := freshId (List.length events);
       memberId := memberId;
       startDate := startOfDay (Some currentDate);
       endDate := endOfDay (Some currentDate);
       status := cellStatus cellValue;
       note := if isEmpty cellValue then None else Some cellValue;
       isImported := true |} ].

(** One pass of the loop over week rows, lines 373-441. *)
Definition weekRow (worksheet : Worksheet) (memberId : string)
    (dateColIndex : nat) (weekdayColumns : list WeekdayColumn)
    (state : list CalendarEvent * list string) (rowNum : nat)
    : list CalendarEvent * list string :=
  let '(events, warnings) := state in
  let row := getRow worksheet rowNum in
  if negb (hasValues row) then state
  else
    let dateText := extractCellText (getCell row dateColIndex) in
    if isEmpty dateText
       || includes dateText "synthèse"
       || includes dateText "période"
    then state
    else
      match split "/" dateText with
      | [day; month; year] =>
          let mondayDate :=
            Date_ymd (toNumber year)
                     (option_map (fun m => m - 1)%Q (toNumber month))
                     (toNumber day) in
          match mondayDate with
          | None =>
              (events,
               app warnings
               [ "Ligne " ++ ofNat rowNum ++ ": Date invalide " ++ dquote
                 ++ dateText ++ dquote ])
          | Some monday =>
              (fold_left (weekdayEvent memberId row monday) weekdayColumns
                         events,
               warnings)
          end
      | _ =>
          (events,
           app warnings
           [ "Ligne " ++ ofNat rowNum ++ ": Format de date invalide " ++ dquote
             ++ dateText ++ dquote ])
      end.

(** Row numbers [first], [first + 1], ..., [last]. *)
Definition rowNumbers (first last : nat) : list nat :=
  seq first (S last - first).

(** [semaineColIndex], lines 341-343, is computed for the log only. *)
Definition parseWeeklyCalendarFormat (worksheet : Worksheet)
    (columnMap : ColumnMap) (dataStartRow : nat) (memberId : string)
    : CalendarParseResult :=
  let dateColIndex :=
    findColumn (fun key => includes key "date" || includes key "lundi")
               columnMap in
  let weekdayColumns := weekdayColumnsOf columnMap in
  match dateColIndex, weekdayColumns with
  | None, _ | Some O, _ | _, [] =>
      {| success := false;
         events := [];
         errors := Some
           [ "Format calendrier hebdomadaire invalide : colonnes date ou jours manquantes" ];
         warnings := None |}
  | Some dateColIndex, _ :: _ =>
      let '(events, warnings) :=
        fold_left (weekRow worksheet memberId dateColIndex weekdayColumns)
                  (rowNumbers dataStartRow (rowCount worksheet))
                  ([], []) in
      match events with
      | [] =>
          {| success := false;
             events := [];
             errors := Some
               [ "Aucun événement trouvé dans le calendrier hebdomadaire" ];
             warnings := optWarnings warnings |}
      | _ :: _ =>
          {| success := true;
             events := events;
             errors := None;
             warnings := optWarnings warnings |}
      end
  end.

(** *** Spreadsheets, lines 485-787 *)

(** The callback of [row.eachCell], lines 559-565. *)
Definition headerCell (acc : ColumnMap * list string) (entry : Cell * nat)
    : ColumnMap * list string :=
  let '(tempMap, rowValues) := acc in
  let '(cell, colNumber) := entry in
  let text := trim (toLowerCase (extractCellText cell)) in
  if negb (isEmpty text) && negb (String.eqb text "[object object]")
  then (Map_set tempMap text colNumber, app rowValues [text])
  else acc.

Definition scanRow (row : Row) : ColumnMap * list string :=
  fold_left headerCell (eachCell row) ([], []).

(** [new Set(rowValues).size] *)
Definition uniqueCount (rowValues : list string) : nat :=
  List.length (nodup string_dec rowValues).

(** The header criteria of lines 570-589. *)
Definition isHeaderRow (tempMap : ColumnMap) (rowValues : list string) : bool :=
  let uniqueValues := uniqueCount rowValues in
  let hasSemaineColumn :=
    existsb (fun col => includes col "semaine" || includes col "week"
                        || String.eqb col "n°" || includes col "n° semaine")
            (Map_keys tempMap) in
  let hasDateColumn :=
    existsb (fun col => includes col "date" || includes col "lundi")
            (Map_keys tempMap) in
  let hasWeekdayColumns :=
    existsb (fun col => String.eqb col "lu" || String.eqb col "ma"
                        || String.eqb col "me" || String.eqb col "je"
                        || String.eqb col "ve")
            (Map_keys tempMap) in
  (hasSemaineColumn && hasDateColumn) || hasWeekdayColumns
  || (3 <? uniqueValues)%nat.

(** The header search of lines 554-596: the state is the column map and the
    data start row; the first qualifying row ends the search. *)
Fixpoint findHeader (worksheet : Worksheet) (rowNums : list nat)
    (state : ColumnMap * nat) : ColumnMap * nat :=
  match rowNums with
  | [] => state
  | rowNum :: rest =>
      let '(tempMap, rowValues) := scanRow (getRow worksheet rowNum) in
      if isHeaderRow tempMap rowValues then (tempMap, S rowNum)
      else findHeader worksheet rest state
  end.

Definition detectHeader (worksheet : Worksheet) : ColumnMap * nat :=
  findHeader worksheet (rowNumbers 1 (Nat.min 10 (rowCount worksheet)))
             ([], 2%nat).

(** The format test of lines 613-622. *)
Definition isWeeklyCalendarFormat (columnMap : ColumnMap) : bool :=
  let hasSemaineColumn :=
    existsb (fun col => includes col "semaine" || includes col "week"
                        || String.eqb col "n°")
            (Map_keys columnMap) in
  let hasWeekdayColumns :=
    existsb (fun col => String.eqb col "lu" || String.eqb col "ma"
                        || String.eqb col "me")
            (Map_keys columnMap) in
  hasSemaineColumn && hasWeekdayColumns.

(** The date of a cell value, lines 705-721. *)
Definition cellDate (v : CellValue) : JSDate :=
  match v with
  | VNumber n => excelDateToJSDate n
  | VDate d => d
  | _ => parseDate (JSString_of v)
  end.

(** [a || b] on cell values *)
Definition orElse (a b : CellValue) : CellValue := if truthy a then a else b.

(** One pass of the loop over table rows, lines 650-759. *)
Definition tableRow (worksheet : Worksheet) (memberId : string)
    (columnMap : ColumnMap) (state : list CalendarEvent * list string)
    (rowNumber : nat) : list CalendarEvent * list string :=
  let '(events, warnings) := state in
  let row := getRow worksheet rowNumber in
  if negb (hasValues row) then state
  else
    let dateDebutValue :=
      getCellValue row
        [ "date début"; "date de début"; "start date"; "date"; "date_debut";
          "début"; "debut" ] columnMap in
    if negb (truthy dateDebutValue)
    then (events,
          app warnings [ "Ligne " ++ ofNat rowNumber ++ ": Date de début manquante" ])
    else
      let dateFinValue :=
        orElse (getCellValue row
                  [ "date fin"; "date de fin"; "end date"; "date_fin"; "fin" ]
                  columnMap)
               dateDebutValue in
      let typeValue :=
        orElse (getCellValue row
                  [ "type"; "statut"; "status"; "état"; "etat" ] columnMap)
               (VString "école") in
      let startDate := cellDate dateDebutValue in
      let endDate := cellDate dateFinValue in
      if isInvalid startDate || isInvalid endDate
      then (events, app warnings [ "Ligne " ++ ofNat rowNumber ++ ": Date invalide" ])
      else if dateLt endDate startDate
      then (events,
            app warnings
              [ "Ligne " ++ ofNat rowNumber ++ ": Date de fin avant date de début" ])
      else
        let typeStr := JSString_of typeValue in
        (app events
           [ {| id := freshId (List.length events);
                memberId := memberId;
                startDate := startOfDay startDate;
                endDate := endOfDay endDate;
                status := detectStatusFromSummary typeStr;
                note := Some typeStr;
                isImported := true |} ],
         warnings).

Definition parseExcelFile (file : File) (memberId : string)
    : CalendarParseResult :=
  match XLSX_load (content file) with
  | Throws message =>
      {| success := false;
         events := [];
         errors := Some [ "Erreur parsing Excel: " ++ message ];
         warnings := None |}
  | Returns [] =>
      {| success := false;
         events := [];
         errors := Some [ "Le fichier Excel ne contient aucune feuille" ];
         warnings := None |}
  | Returns (worksheet :: _) =>
      let '(columnMap, dataStartRow) := detectHeader worksheet in
      match columnMap with
      | [] =>
          {| success := false;
             events := [];
             errors := Some
               [ "Aucune colonne d'en-tête valide détectée dans les 10 premières lignes.";
                 "Format attendu: Le fichier doit contenir une ligne d'en-têtes avec : Date début | Date fin | Type";
                 "Ou un format calendrier hebdomadaire avec : N° Semaine | Date | LU | MA | ME..." ];
             warnings := None |}
      | _ :: _ =>
          if isWeeklyCalendarFormat columnMap
          then parseWeeklyCalendarFormat worksheet columnMap dataStartRow memberId
          else if negb (existsb
                          (fun col => includes col "date" || includes col "début"
                                      || includes col "debut"
                                      || includes col "start")
                          (Map_keys columnMap))
          then
            {| success := false;
               events := [];
               errors := Some
                 [ "Colonne " ++ dquote ++ "date début" ++ dquote ++ " ou "
                   ++ dquote ++ "date" ++ dquote
                   ++ " non trouvée. Colonnes détectées: "
                   ++ String.concat ", " (Map_keys columnMap);
                   "Format attendu: Le fichier doit contenir une colonne "
                   ++ dquote ++ "Date début" ++ dquote ++ " ou " ++ dquote
                   ++ "Date" ++ dquote ];
               warnings := None |}
          else
            let '(events, warnings) :=
              fold_left (tableRow worksheet memberId columnMap)
                        (rowNumbers dataStartRow (rowCount worksheet))
                        ([], []) in
            match events with
            | [] =>
                {| success := false;
                   events := [];
                   errors := Some
                     [ "Aucun événement valide trouvé dans le fichier Excel" ];
                   warnings := optWarnings warnings |}
            | _ :: _ =>
                {| success := true;
                   events := events;
                   errors := None;
                   warnings := optWarnings warnings |}
            end
      end
  end.

(** *** Delimited text, lines 796-1005 *)

Definition LF : ascii := ascii_of_nat 10.
Definition CR : ascii := ascii_of_nat 13.
Definition quoteChar : ascii := ascii_of_nat 34.

(** Removes one final character [c], if there. *)
Definition dropLast (c : ascii) (s : string) : string :=
  match JSString.rev s with
  | String d r => if Ascii.eqb d c then JSString.rev r else s
  | EmptyString => s
  end.

Fixpoint dropCRs (parts : list string) : list string :=
  match parts with
  | [] => []
  | [last] => [last]
  | p :: rest => dropLast CR p :: dropCRs rest
  end.

(** [text.split] on a line feed with an optional carriage return before it *)
Definition splitLines (text : string) : list string :=
  dropCRs (split LF text).

(** [s.replace] dropping a leading and a trailing double quote *)
Definition stripQuotes (s : string) : string :=
  let s1 :=
    match s with
    | String c s' => if Ascii.eqb c quoteChar then s' else s
    | EmptyString => s
    end in
  dropLast quoteChar s1.

Definition csvFields (line : string) : list string :=
  map (fun v => stripQuotes (trim v)) (split "," line).

(** A [Record<string, string>]: own properties in insertion order. *)
Definition CSVRow : Type := list (string * string).

Fixpoint Obj_set (row : CSVRow) (key v : string) : CSVRow :=
  match row with
  | [] => [(key, v)]
  | (k, w) :: row' =>
      if String.eqb k key then (k, v) :: row' else (k, w) :: Obj_set row' key v
  end.

Fixpoint Obj_get (row : CSVRow) (key : string) : option string :=
  match row with
  | [] => None
  | (k, w) :: row' => if String.eqb k key then Some w else Obj_get row' key
  end.

(** [headers.forEach((header, index) => row[header] = values[index] || '')] *)
Fixpoint fillRow (headers values : list string) (row : CSVRow) : CSVRow :=
  match headers with
  | [] => row
  | header :: headers' =>
      fillRow headers' (tl values)
              (Obj_set row header (hd EmptyString values))
  end.

Definition parseSimpleCSV (text : string) : list CSVRow :=
  let lines :=
    filter (fun line => negb (isEmpty (trim line))) (splitLines text) in
  match lines with
  | [] => []
  | first :: rest =>
      let headers := csvFields first in
      map (fun line => fillRow headers (csvFields line) []) rest
  end.

(** [getCSVValue], lines 830-849 *)
Fixpoint getCSVValue (row : CSVRow) (possibleNames : list string)
    : option string :=
  match possibleNames with
  | [] => None
  | name :: rest =>
      match Obj_get row name with
      | Some (String c v) => Some (String c v)
      | _ =>
          let normalizedName := toLowerCase name in
          match find (fun e => String.eqb (toLowerCase (fst e)) normalizedName)
                     row with
          | Some (_, v) => Some v
          | None => getCSVValue row rest
          end
      end
  end.

(** [a || b] on optional strings *)
Definition orDefault (a : option string) (b : string) : string :=
  match a with
  | Some (String c v) => String c v
  | _ => b
  end.

(** The callback of [rows.forEach], lines 903-977. *)
Definition csvRow (memberId : string)
    (state : list CalendarEvent * list string) (entry : nat * CSVRow)
    : list CalendarEvent * list string :=
  let '(events, warnings) := state in
  let '(index, row) := entry in
  let rowNumber := (index + 2)%nat in
  match getCSVValue row
          [ "Date début"; "Date de début"; "Start Date"; "Date"; "date_debut";
            "Début"; "debut" ] with
  | Some (String c v) =>
      let dateDebutValue := String c v in
      let dateFinValue :=
        orDefault (getCSVValue row
                     [ "Date fin"; "Date de fin"; "End Date"; "date_fin"; "Fin";
                       "fin" ])
                  dateDebutValue in
      let typeValue :=
        orDefault (getCSVValue row
                     [ "Type"; "type"; "Statut"; "statut"; "Status"; "status";
                       "État"; "etat" ])
                  "école" in
      let startDate := parseDate dateDebutValue in
      let endDate := parseDate dateFinValue in
      if isInvalid startDate || isInvalid endDate
      then (events, app warnings [ "Ligne " ++ ofNat rowNumber ++ ": Date invalide" ])
      else if dateLt endDate startDate
      then (events,
            app warnings
              [ "Ligne " ++ ofNat rowNumber ++ ": Date de fin avant date de début" ])
      else
        (app events
           [ {| id := freshId (List.length events);
                memberId := memberId;
                startDate := startOfDay startDate;
                endDate := endOfDay endDate;
                status := detectStatusFromSummary typeValue;
                note := Some typeValue;
                isImported := true |} ],
         warnings)
  | _ =>
      (events,
       app warnings [ "Ligne " ++ ofNat rowNumber ++ ": Date de début manquante" ])
  end.

(** The rows with their indexes, as [forEach] hands them out. *)
Definition indexed {A : Type} (l : list A) : list (nat * A) :=
  combine (seq 0 (List.length l)) l.

Definition parseCSVFile (file : File) (memberId : string)
    : CalendarParseResult :=
  let text := content file in
  if isEmpty text || isEmpty (trim text)
  then
    {| success := false;
       events := [];
       errors := Some [ "Le fichier CSV est vide" ];
       warnings := None |}
  else
    match parseSimpleCSV text with
    | [] =>
        {| success := false;
           events := [];
           errors := Some [ "Aucune donnée trouvée dans le fichier CSV" ];
           warnings := None |}
    | rows =>
        let '(events, warnings) :=
          fold_left (csvRow memberId) (indexed rows) ([], []) in
        match events with
        | [] =>
            {| success := false;
               events := [];
               errors := Some
                 [ "Aucun événement valide trouvé dans le fichier CSV" ];
               warnings := optWarnings warnings |}
        | _ :: _ =>
            {| success := true;
               events := events;
               errors := None;
               warnings := optWarnings warnings |}
        end
    end.

(** *** iCalendar, lines 105-247 *)

(** [event.summary || 'Sans titre'] *)
Definition titleOf (summary : option string) : string :=
  orDefault summary "Sans titre".

(** One pass of the loop over VEVENT components, lines 155-218. *)
Definition veventStep (memberId : string)
    (state : list CalendarEvent * list string) (veventComp : VEventComponent)
    : list CalendarEvent * list string :=
  let '(events, warnings) := state in
  match veventComp with
  | BrokenComponent rawSummary =>
      (events,
       app warnings
         [ "Événement ignoré (erreur de traitement): " ++ titleOf rawSummary ])
  | EventComponent event =>
      match ev_startDate event, ev_endDate event with
      | Some start, Some finish =>
          match start, finish with
          | TimeJS startDate, TimeJS endDate =>
              if isInvalid startDate || isInvalid endDate
              then (events,
                    app warnings
                      [ "Événement ignoré (erreur de date): "
                        ++ titleOf (ev_summary event) ])
              else if dateLt endDate startDate
              then (events,
                    app warnings
                      [ "Événement ignoré (date de fin avant date de début): "
                        ++ titleOf (ev_summary event) ])
              else
                let summary := orDefault (ev_summary event) EmptyString in
                (app events
                   [ {| id := freshId (List.length events);
                        memberId := memberId;
                        startDate := startOfDay startDate;
                        endDate := endOfDay endDate;
                        status := detectStatusFromSummary summary;
                        note := Some summary;
                        isImported := true |} ],
                 warnings)
          | _, _ =>
              (events,
               app warnings
                 [ "Événement ignoré (erreur de date): "
                   ++ titleOf (ev_summary event) ])
          end
      | _, _ =>
          (events,
           app warnings
             [ "Événement ignoré (dates manquantes): "
               ++ titleOf (ev_summary event) ])
      end
  end.

Definition parseICSFile (file : File) (memberId : string)
    : CalendarParseResult :=
  let text := content file in
  if isEmpty text || isEmpty (trim text)
  then
    {| success := false;
       events := [];
       errors := Some [ "Le fichier est vide" ];
       warnings := None |}
  else
    match ICAL_parse text with
    | ParseThrows message =>
        {| success := false;
           events := [];
           errors := Some [ "Format ICS invalide: " ++ message ];
           warnings := None |}
    | ComponentThrows message =>
        {| success := false;
           events := [];
           errors := Some [ "Erreur lors de la lecture du fichier: " ++ message ];
           warnings := None |}
    | VEvents [] =>
        {| success := false;
           events := [];
           errors := Some [ "Aucun événement trouvé dans le fichier ICS" ];
           warnings := None |}
    | VEvents vevents =>
        let '(events, warnings) :=
          fold_left (veventStep memberId) vevents ([], []) in
        match events with
        | [] =>
            {| success := false;
               events := [];
               errors := Some [ "Aucun événement valide trouvé" ];
               warnings := optWarnings warnings |}
        | _ :: _ =>
            {| success := true;
               events := events;
               errors := None;
               warnings := optWarnings warnings |}
        end
    end.

(** *** The entry point, lines 1032-1069 *)

Definition unsupportedFormat (extension : string) : CalendarParseResult :=
  {| success := false;
     events := [];
     errors := Some
       [ "Format de fichier non supporté: ." ++ extension;
         "Formats supportés: .ics, .xlsx, .xls, .csv" ];
     warnings := None |}.

Definition unknownFormat : CalendarParseResult :=
  {| success := false;
     events := [];
     errors := Some [ "Impossible de déterminer le format du fichier" ];
     warnings := None |}.

(** [file.name.split('.').pop()?.toLowerCase()] *)
Definition extensionOf (file : File) : string :=
  toLowerCase (last (split "." (name file)) EmptyString).

(** The routing of [parseCalendarFile], over the three format parsers. *)
Definition routeCalendarFile
    (ics xlsx csv : File -> string -> CalendarParseResult)
    (file : File) (memberId : string) : CalendarParseResult :=
  let extension := extensionOf file in
  if isEmpty extension then unknownFormat
  else if String.eqb extension "ics" then ics file memberId
  else if String.eqb extension "xlsx" || String.eqb extension "xls"
  then xlsx file memberId
  else if String.eqb extension "csv" then csv file memberId
  else unsupportedFormat extension.

Definition parseCalendarFile (file : File) (memberId : string)
    : CalendarParseResult :=
  routeCalendarFile parseICSFile parseExcelFile parseCSVFile file memberId.

End Parser.

(* ===================================================================== *)
(** ** The preview of an iCalendar file, lines 260-282 *)
(* ===================================================================== *)

Section Summary.

Context {host : Host}.

(** The counters of [byStatus], one per availability status. *)
Record StatusCounts : Type := {
  count_company : nat;
  count_available : nat;
  count_unavailable : nat;
  count_school : nat;
  count_vacation : nat
}.

Definition noCounts : StatusCounts :=
  {| count_company := 0; count_available := 0; count_unavailable := 0;
     count_school := 0; count_vacation := 0 |}.

(** [byStatus[event.status]++] *)
Definition increment (byStatus : StatusCounts) (s : AvailabilityStatus)
    : StatusCounts :=
  match s with
  | company =>
      {| count_company := S (count_company byStatus);
         count_available := count_available byStatus;
         count_unavailable := count_unavailable byStatus;
         count_school := count_school byStatus;
         count_vacation := count_vacation byStatus |}
  | available =>
      {| count_company := count_company byStatus;
         count_available := S (count_available byStatus);
         count_unavailable := count_unavailable byStatus;
         count_school := count_school byStatus;
         count_vacation := count_vacation byStatus |}
  | unavailable =>
      {| count_company := count_company byStatus;
         count_available := count_available byStatus;
         count_unavailable := S (count_unavailable byStatus);
         count_school := count_school byStatus;
         count_vacation := count_vacation byStatus |}
  | school =>
      {| count_company := count_company byStatus;
         count_available := count_available byStatus;
         count_unavailable := count_unavailable byStatus;
         count_school := S (count_school byStatus);
         count_vacation := count_vacation byStatus |}
  | vacation =>
      {| count_company := count_company byStatus;
         count_available := count_available byStatus;
         count_unavailable := count_unavailable byStatus;
         count_school := count_school byStatus;
         count_vacation := S (count_vacation byStatus) |}
  end.

Record ICSFileSummary : Type := {
  total : nat;
  byStatus : StatusCounts
}.

Definition getICSFileSummary (file : File) : ICSFileSummary :=
  let result := parseICSFile file "temp" in
  {| total := List.length (events result);
     byStatus :=
       fold_left (fun counts event => increment counts (status event))
                 (events result) noCounts |}.

End Summary.

(* ===================================================================== *)
(** ** The import route ([src/app/api/import/route.ts]) *)
(* ===================================================================== *)

(** What [formData.get] yields: nothing, a text or a file. *)
Inductive FormEntry : Type :=
| NoEntry
| TextEntry (value : string)
| FileEntry (file : File).

Record ImportForm : Type := {
  entry_memberId : FormEntry;
  entry_file : FormEntry
}.

(** An [Error] that was thrown. *)
Record Thrown : Type := { thrownName : string; thrownMessage : string }.

(** A request: reading its form data throws or yields the form. *)
Inductive ImportRequest : Type :=
| FormThrows (error : Thrown)
| FormRead (formData : ImportForm).

Record Member : Type := { member_id : string; member_name : string }.

(** A row of the events table; the dates stand for their ISO strings. *)
Record EventRow : Type := {
  row_member_id : string;
  row_start_date : Z;
  row_end_date : Z;
  row_status : AvailabilityStatus;
  row_note : option string;
  row_is_imported : bool
}.

Record ImportRow : Type := {
  import_member_id : string;
  import_file_name : string;
  import_file_type : string;
  import_file_url : option string
}.

(** What the storage and the database answer.  A failed lookup, upload or
    record insertion is [None]; the insertion of the events answers with its
    error message or with the rows inserted, if any are returned. *)
Class Backend : Type := {
  selectMember : string -> option Member;
  dateNow : nat;
  uploadFile : string -> File -> option string;
  insertEvents : list EventRow -> Outcome (option (list EventRow));
  insertImportRecord : ImportRow -> option ImportRow
}.

(** The calls made to the storage and the database, in order. *)
Inductive Operation : Type :=
| SelectMember (memberId : string)
| UploadFile (storagePath : string)
| DeleteImportedEvents (memberId : string)
| DeleteImportRecord (memberId : string)
| InsertEvents (rows : list EventRow)
| InsertImportRecord (row : ImportRow).

Inductive ResponseBody : Type :=
| ErrorBody (error : string) (details : option string)
            (warnings : option (list string))
| ImportedBody (import : option ImportRow) (eventsCreated : nat)
               (warnings : option (list string)).

Record Response : Type := { httpStatus : nat; body : ResponseBody }.

(** The pattern of line 36: groups of hexadecimal digits between hyphens, in
    any case, from the start of the text to its end. *)
Inductive PatternItem : Type :=
| HexDigits (count : nat)
| Hyphen.

Definition isHexDigit (c : ascii) : bool :=
  let n := nat_of_ascii c in
  ((48 <=? n) && (n <=? 57) || (97 <=? n) && (n <=? 102)
   || (65 <=? n) && (n <=? 70))%nat.

Fixpoint matchHex (count : nat) (s : string) : option string :=
  match count with
  | O => Some s
  | S count' =>
      match s with
      | String c s' => if isHexDigit c then matchHex count' s' else None
      | EmptyString => None
      end
  end.

Fixpoint matchPattern (pattern : list PatternItem) (s : string) : bool :=
  match pattern with
  | [] => isEmpty s
  | HexDigits count :: pattern' =>
      match matchHex count s with
      | Some rest => matchPattern pattern' rest
      | None => false
      end
  | Hyphen :: pattern' =>
      match s with
      | String c s' => Ascii.eqb c "-" && matchPattern pattern' s'
      | EmptyString => false
      end
  end.

Definition uuidPattern : list PatternItem :=
  [ HexDigits 8; Hyphen; HexDigits 4; Hyphen; HexDigits 4; Hyphen;
    HexDigits 4; Hyphen; HexDigits 12 ].

Definition isUUID (s : string) : bool := matchPattern uuidPattern s.

(** [String(error)] of an [Error] *)
Definition errorString (error : Thrown) : string :=
  if isEmpty (thrownName error) then thrownMessage error
  else if isEmpty (thrownMessage error) then thrownName error
  else thrownName error ++ ": " ++ thrownMessage error.

Definition validationFailed (details : string) : Response :=
  {| httpStatus := 400;
     body := ErrorBody "Validation failed" (Some details) None |}.

Definition internalError (error : Thrown) : Response :=
  {| httpStatus := 500;
     body := ErrorBody "Internal server error" (Some (errorString error))
                       None |}.

Section ImportRoute.

Context {host : Host} {backend : Backend}.

(** The row of an event, lines 159-166; [toISOString] throws on the Invalid
    Date. *)
Definition eventRow (memberId : string) (event : CalendarEvent)
    : option EventRow :=
  match startOfDay (startDate event), endOfDay (endDate event) with
  | Some start, Some finish =>
      Some {| row_member_id := memberId;
              row_start_date := start;
              row_end_date := finish;
              row_status := status event;
              row_note :=
                match note event with
                | Some (String c n) => Some (String c n)
                | _ => None
                end;
              row_is_imported := true |}
  | _, _ => None
  end.

Fixpoint eventRows (memberId : string) (evs : list CalendarEvent)
    : option (list EventRow) :=
  match evs with
  | [] => Some []
  | event :: evs' =>
      match eventRow memberId event, eventRows memberId evs' with
      | Some row, Some rows => Some (row :: rows)
      | _, _ => None
      end
  end.

(** [parseResult.errors?.join(', ') || 'No events found in file'] *)
Definition failureDetails (parseResult : CalendarParseResult) : string :=
  match errors parseResult with
  | Some messages =>
      match String.concat ", " messages with
      | EmptyString => "No events found in file"
      | String c joined => String c joined
      end
  | None => "No events found in file"
  end.

(** [POST], lines 20-222: the response and the calls made on the way.  The
    success body stands for its fixed message as well. *)
Definition POST (request : ImportRequest) : Response * list Operation :=
  match request with
  | FormThrows error =>
      if includes (thrownMessage error) "form"
      then ({| httpStatus := 400;
               body := ErrorBody "Invalid form data" None None |}, [])
      else (internalError error, [])
  | FormRead formData =>
      match entry_memberId formData with
      | TextEntry (String c m) =>
          let memberId := String c m in
          if negb (isUUID memberId)
          then (validationFailed "memberId must be a valid UUID", [])
          else
            match entry_file formData with
            | FileEntry file =>
                let fileName := name file in
                let fileExtension :=
                  toLowerCase (last (split "." fileName) EmptyString) in
                if isEmpty fileExtension
                   || negb (existsb (String.eqb fileExtension)
                                    [ "ics"; "xlsx"; "xls"; "csv" ])
                then
                  (validationFailed
                     "File type must be .ics, .xlsx, .xls, or .csv. PDF support is temporarily disabled.",
                   [])
                else
                  let fileType :=
                    if String.eqb fileExtension "xls" then "xlsx"
                    else fileExtension in
                  match selectMember memberId with
                  | None =>
                      ({| httpStatus := 404;
                          body := ErrorBody "Member not found" None None |},
                       [ SelectMember memberId ])
                  | Some member =>
                      let parseResult := parseCalendarFile file memberId in
                      if negb (success parseResult)
                         || (List.length (events parseResult) =? 0)%nat
                      then
                        ({| httpStatus := 400;
                            body := ErrorBody "Failed to parse calendar file"
                                      (Some (failureDetails parseResult))
                                      (warnings parseResult) |},
                         [ SelectMember memberId ])
                      else
                        let storagePath :=
                          memberId ++ "/" ++ ofNat dateNow ++ "_" ++ fileName in
                        let fileUrl := uploadFile storagePath file in
                        let cleared :=
                          [ SelectMember memberId; UploadFile storagePath;
                            DeleteImportedEvents memberId;
                            DeleteImportRecord memberId ] in
                        match eventRows memberId (events parseResult) with
                        | None =>
                            (internalError
                               {| thrownName := "RangeError";
                                  thrownMessage := "Invalid time value" |},
                             cleared)
                        | Some eventsToInsert =>
                            match insertEvents eventsToInsert with
                            | Throws message =>
                                ({| httpStatus := 500;
                                    body := ErrorBody "Failed to create events"
                                              (Some message) None |},
                                 app cleared [ InsertEvents eventsToInsert ])
                            | Returns insertedEvents =>
                                let importRow :=
                                  {| import_member_id := memberId;
                                     import_file_name := fileName;
                                     import_file_type := fileType;
                                     import_file_url := fileUrl |} in
                                ({| httpStatus := 201;
                                    body :=
                                      ImportedBody
                                        (insertImportRecord importRow)
                                        match insertedEvents with
                                        | Some rows => List.length rows
                                        | None => 0%nat
                                        end
                                        (warnings parseResult) |},
                                 app cleared
                                     [ InsertEvents eventsToInsert;
                                       InsertImportRecord importRow ])
                            end
                        end
                  end
            | _ => (validationFailed "file is required", [])
            end
      | _ => (validationFailed "memberId is required", [])
      end
  end.

End ImportRoute.

(* ===================================================================== *)
(** ** A sample host, to run the parser on concrete files *)
(* ===================================================================== *)

Module SampleHost.

(** Lower-casing of the letters A-Z and of the accented capitals U+00C0 to
    U+00DE (two bytes, the first being 195). *)
Fixpoint lowerBytes (afterC3 : bool) (s : string) : string :=
  match s with
  | EmptyString => EmptyString
  | String c s' =>
      let n := nat_of_ascii c in
      if afterC3 then
        if (128 <=? n)%nat && (n <=? 158)%nat && negb (n =? 151)%nat
        then String (ascii_of_nat (n + 32)) (lowerBytes false s')
        else String c (lowerBytes false s')
      else if (65 <=? n)%nat && (n <=? 90)%nat
      then String (ascii_of_nat (n + 32)) (lowerBytes false s')
      else String c (lowerBytes (n =? 195)%nat s')
  end.

(** Numbers written with decimal digits only; the empty text is 0. *)
Fixpoint digitsValue (s : string) (acc : Z) : option Z :=
  match s with
  | EmptyString => Some acc
  | String c s' =>
      let n := nat_of_ascii c in
      if (48 <=? n)%nat && (n <=? 57)%nat
      then digitsValue s' (10 * acc + Z.of_nat (n - 48))
      else None
  end.

Definition decimal (s : string) : option Q :=
  option_map inject_Z (digitsValue (trim s) 0).

Definition twoDigits (n : Z) : string :=
  if n <? 10 then "0" ++ ofNat (Z.to_nat n) else ofNat (Z.to_nat n).

(** Dates written YYYY-MM-DD, read as midnight UTC. *)
Definition isoDate (s : string) : JSDate :=
  match split "-" s with
  | [y; m; d] =>
      match digitsValue y 0, digitsValue m 0, digitsValue d 0 with
      | Some yv, Some mv, Some dv =>
          if (String.length y =? 4)%nat && (String.length m =? 2)%nat
             && (String.length d =? 2)%nat
             && (1 <=? mv) && (mv <=? 12) && (1 <=? dv) && (dv <=? 31)
          then Some (MakeDate (MakeDay yv (mv - 1) dv) 0)
          else None
      | _, _, _ => None
      end
  | _ => None
  end.

Definition frenchDate (offset : Z) (d : JSDate) : string :=
  match d with
  | None => "Invalid Date"
  | Some t =>
      let '(y, m, dd) := civil (t + offset) in
      twoDigits dd ++ "/" ++ twoDigits m ++ "/" ++ ofNat (Z.to_nat y)
  end.

Definition integerString (n : Q) : string :=
  let z := ToIntegerOrInfinity n in
  if z <? 0 then "-" ++ ofNat (Z.to_nat (- z)) else ofNat (Z.to_nat z).

(** The sample host reads [workbook] from any spreadsheet file and [document]
    from any iCalendar text; its local time is one hour ahead of UTC. *)
Definition sampleHost (workbook : Outcome (list Worksheet))
    (document : ICALDocument) : Host :=
  {| toLowerCase := lowerBytes false;
     toNumber := decimal;
     numberToString := integerString;
     dateToString := frenchDate 3600000;
     toLocaleDateString := frenchDate 3600000;
     parseDate := isoDate;
     LocalTZA := 3600000;
     freshId := fun n => "import-" ++ ofNat n;
     ICAL_parse := fun _ => document;
     XLSX_load := fun _ => workbook |}.

Definition plainHost : Host :=
  sampleHost (Throws "no workbook") (VEvents []).

(** A cell holding text. *)
Definition textCell (s : string) : Cell :=
  match s with
  | EmptyString => emptyCell
  | String _ _ => {| value := VString s; text := s |}
  end.

(** A file whose name ends with a dot. *)
Definition dottedFile : File :=
  {| name := "planning."; content := "BEGIN:VCALENDAR" |}.

(** A weekly grid: a title row, an empty row, the header row, then one week
    per row. *)
Definition gridSheet : Worksheet :=
  [ map textCell [ "Planning 2025" ];
    [];
    map textCell [ "N° Semaine"; "Date"; "LU"; "MA"; "ME"; "JE"; "VE"; "SA"; "DI" ];
    map textCell [ "3"; "13/01/2025"; "7"; ""; "Férié"; "indisponible";
                   "Disponible"; ""; "" ] ].

Definition gridHost : Host := sampleHost (Returns [ gridSheet ]) (VEvents []).

Definition gridFile : File := {| name := "planning.xlsx"; content := "PK" |}.

(** Monday 13 January 2025, local time: the first event of the sample grid. *)
Definition mondayEvent : CalendarEvent :=
  {| id := "import-0";
     memberId := "member-1";
     startDate := Some 1736722800000;
     endDate := Some 1736809199999;
     status := school;
     note := Some "7";
     isImported := true |}.






(** Local midnight of 13 January 2025 and of the days after it. *)
Definition jan13 : Z := 1736722800000.

Definition timedEvent (start finish : Z) (summary : string) : VEventComponent :=
  EventComponent
    {| ev_startDate := Some (TimeJS (Some start));
       ev_endDate := Some (TimeJS (Some finish));
       ev_summary := Some summary |}.

(** An iCalendar document with five events, one of them without an end. *)
Definition fiveEvents : list VEventComponent :=
  [ timedEvent jan13 (jan13 + 3600000) "Cours HETIC";
    timedEvent (jan13 + 86400000) (jan13 + 90000000) "Entreprise";
    EventComponent
      {| ev_startDate := Some (TimeJS (Some (jan13 + 172800000)));
         ev_endDate := None;
         ev_summary := Some "Sans fin" |};
    timedEvent (jan13 + 259200000) (jan13 + 262800000) "Vacances";
    timedEvent (jan13 + 345600000) (jan13 + 349200000) "Absent" ].

Definition icsHost : Host := sampleHost (Throws "no workbook") (VEvents fiveEvents).

Definition icsFile : File :=
  {| name := "cours.ics"; content := "BEGIN:VCALENDAR" |}.

(** Lines of a delimited text, ended by line feeds. *)
Definition unlines (lines : list string) : string :=
  String.concat (String (ascii_of_nat 10) EmptyString) lines.

Definition csvText : string :=
  unlines [ "Date début,Date fin,Type";
            "2025-01-13,2025-01-14,Vacances";
            "2025-02-14,2025-02-10,Cours";
            "2025-02-17,,";
            ",,Absent" ].

Definition csvFile : File := {| name := "planning.csv"; content := csvText |}.

(** A table: one event per row, the second row without a start date. *)
Definition tableSheet : Worksheet :=
  [ map textCell [ "Date début"; "Date fin"; "Type"; "Lieu" ];
    map textCell [ "2025-01-13"; "2025-01-14"; "Cours"; "Paris" ];
    map textCell [ ""; "2025-01-20"; "Cours"; "Paris" ];
    [];
    map textCell [ "2025-01-27"; ""; "Vacances"; "" ] ].

Definition tableHost : Host := sampleHost (Returns [ tableSheet ]) (VEvents []).

Definition tableColumns : list (string * nat) :=
  [ ("date début", 1); ("date fin", 2); ("type", 3); ("lieu", 4) ]%nat.

(** A database that knows every member and stores what it is given. *)
Definition openBackend : Backend :=
  {| selectMember := fun i => Some {| member_id := i; member_name := "Ada" |};
     dateNow := 1736;
     uploadFile := fun path _ => Some ("https://files/" ++ path);
     insertEvents := fun rows => Returns (Some rows);
     insertImportRecord := fun row => Some row |}.

Definition sampleUUID : string := "3F2504E0-4f89-11d3-9a0c-0305e82c3301".

End SampleHost.
(* ===================================================================== *)
(** ** Notions the properties are stated with *)
(* ===================================================================== *)



Definition vacationKeywords : list string := [ "vacances"; "congé"; "conge" ].

Definition schoolKeywords : list string :=
  [ "école"; "ecole"; "cours"; "hetic"; "formation"; "étude"; "etude" ].

Definition unavailableKeywords : list string := [ "absent"; "indisponible" ].

(** The invariant of a parse result: success comes with events, and a
    non-empty error list with failure. *)
Definition resultInvariant (r : CalendarParseResult) : Prop :=
  (success r = true -> (0 < List.length (events r))%nat)
  /\ (forall messages : list string,
        errors r = Some messages -> messages <> [] -> success r = false).

(** A result names the supported formats when one of its error messages
    lists them. *)
Definition namesSupportedSet (r : CalendarParseResult) : Prop :=
  exists messages message,
    errors r = Some messages /\ In message messages
    /\ includes message ".ics, .xlsx, .xls, .csv" = true.

Definition supportedExtensions : list string := [ "ics"; "xlsx"; "xls"; "csv" ].

Section Normalisation.

Context {host : Host}.



End Normalisation.



Section WeeklyGridNotions.

Context {host : Host}.



(** The Monday the loop reads from an anchor text, lines 387-399: the Invalid
    Date when the text has not three fields between slashes or when the
    fields do not make a date. *)
Definition anchorDate (dateText : string) : JSDate :=
  match split "/" dateText with
  | [day; month; year] =>
      Date_ymd (toNumber year)
               (option_map (fun m => m - 1)%Q (toNumber month))
               (toNumber day)
  | _ => None
  end.


End WeeklyGridNotions.





(** The weekday name of an offset. *)
Definition weekdayName (offset : Z) : string :=
  match offset with
  | 0 => "lu"
  | 1 => "ma"
  | 2 => "me"
  | 3 => "je"
  | 4 => "ve"
  | 5 => "sa"
  | _ => "di"
  end.

(** The number of events and warnings a loop has gathered. *)
Definition stateSize (state : list CalendarEvent * list string) : nat :=
  (List.length (fst state) + List.length (snd state))%nat.

(** The number of warnings of a result. *)
Definition warningCount (r : CalendarParseResult) : nat :=
  match warnings r with
  | None => 0
  | Some messages => List.length messages
  end.

(** The warnings of a result, none when the field is absent. *)
Definition warningList (r : CalendarParseResult) : list string :=
  match warnings r with
  | None => []
  | Some messages => messages
  end.


Section EventNotions.

Context {host : Host}.

(** An event made from a label: it carries the member, is marked imported,
    keeps the label as its note and has the status of the label. *)
Definition labelEvent (member : string) (e : CalendarEvent) : Prop :=
  memberId e = member /\ isImported e = true
  /\ exists label : string,
       note e = Some label /\ status e = detectStatusFromSummary label.




(** The test of lines 628-630 for a table with a date column. *)
Definition hasTableDateColumn (columnMap : ColumnMap) : bool :=
  existsb (fun col => includes col "date" || includes col "début"
                      || includes col "debut" || includes col "start")
          (Map_keys columnMap).

(** A warning about the line numbered [n]. *)
Definition aboutLine (n : nat) (message : string) : Prop :=
  startsWith message ("Ligne " ++ ofNat n ++ ": ") = true.

End EventNotions.

(** Equality of statuses, and the events of a list with a given status. *)
Definition sameStatus (a b : AvailabilityStatus) : bool :=
  match a, b with
  | available, available | unavailable, unavailable | school, school
  | vacation, vacation | company, company => true
  | _, _ => false
  end.

Definition withStatus (s : AvailabilityStatus) (evs : list CalendarEvent)
    : list CalendarEvent :=
  filter (fun e => sameStatus (status e) s) evs.

(** The two shapes of a result: a success has events and no error list, a
    failure has no event and at least one error message. *)
Definition resultShape (r : CalendarParseResult) : Prop :=
  if success r
  then errors r = None /\ events r <> []
  else events r = []
       /\ exists (message : string) (others : list string),
            errors r = Some (message :: others).

(** [s] has the character [c]. *)
Fixpoint hasChar (c : ascii) (s : string) : bool :=
  match s with
  | EmptyString => false
  | String d s' => Ascii.eqb d c || hasChar c s'
  end.


(** The keys of a row of a delimited text. *)
Definition Obj_keys (row : CSVRow) : list string := map fst row.

Section HeaderNotions.

Context {host : Host}.

(** Row [rowNum] of a sheet meets the header criteria. *)
Definition qualifiesAsHeader (worksheet : Worksheet) (rowNum : nat) : bool :=
  isHeaderRow (fst (scanRow (getRow worksheet rowNum)))
              (snd (scanRow (getRow worksheet rowNum))).

(** The error of a sheet without a header row, lines 600-609. *)
Definition noHeaderError : CalendarParseResult :=
  {| success := false;
     events := [];
     errors := Some
       [ "Aucune colonne d'en-tête valide détectée dans les 10 premières lignes.";
         "Format attendu: Le fichier doit contenir une ligne d'en-têtes avec : Date début | Date fin | Type";
         "Ou un format calendrier hebdomadaire avec : N° Semaine | Date | LU | MA | ME..." ];
     warnings := None |}.

End HeaderNotions.


(** A call that only reads. *)
Definition isLookup (op : Operation) : bool :=
  match op with
  | SelectMember _ => true
  | _ => false
  end.

(** The answer to a file name without a supported extension. *)
Definition fileTypeRejected : Response :=
  validationFailed
    "File type must be .ics, .xlsx, .xls, or .csv. PDF support is temporarily disabled.".

(** A request with a member identifier and a file. *)
Definition importRequest (memberId : string) (file : File) : ImportRequest :=
  FormRead {| entry_memberId := TextEntry memberId;
              entry_file := FileEntry file |}.

Section HeaderCellNotions.

Context {host : Host}.

(** The column name a cell gives to the header search, if any: its text in
    lower case, trimmed, when it is neither empty nor the text of an
    object. *)
Definition headerKey (cell : Cell) : option string :=
  let text := trim (toLowerCase (extractCellText cell)) in
  if negb (isEmpty text) && negb (String.eqb text "[object object]")
  then Some text
  else None.

(** The cell is a non-empty cell that gives the column name [key]. *)
Definition namesColumn (key : string) (cell : Cell) : bool :=
  negb (isNull (value cell))
  && match headerKey cell with
     | Some k => String.eqb k key
     | None => false
     end.

(** The last column, from [colNumber] on, whose cell gives [key]. *)
Fixpoint lastColumnNamed (key : string) (colNumber : nat) (row : Row)
    : option nat :=
  match row with
  | [] => None
  | cell :: row' =>
      match lastColumnNamed key (S colNumber) row' with
      | Some col => Some col
      | None => if namesColumn key cell then Some colNumber else None
      end
  end.

End HeaderCellNotions.

(** A group of [count] hexadecimal digits. *)
Fixpoint allHex (s : string) : bool :=
  match s with
  | EmptyString => true
  | String c s' => isHexDigit c && allHex s'
  end.

Definition hexGroup (count : nat) (s : string) : Prop :=
  String.length s = count /\ allHex s = true.

(* ===================================================================== *)
(** ** Facts about strings *)
(* ===================================================================== *)

Section StringFacts.

Lemma startsWith_app (p q : string) : startsWith (p ++ q) p = true.
Proof.
  induction p as [|c p IH]; simpl.
  - destruct q; reflexivity.
  - rewrite Ascii.eqb_refl. exact IH.
Qed.

Lemma startsWith_inv (s p : string) :
  startsWith s p = true -> exists q, s = p ++ q.
Proof.
  revert s. induction p as [|c p IH]; intros s H.
  - exists s. reflexivity.
  - destruct s as [|d s]; simpl in H; [discriminate|].
    apply andb_true_iff in H. destruct H as [Hc Hp].
    apply Ascii.eqb_eq in Hc. subst d.
    destruct (IH _ Hp) as [q ->]. exists q. reflexivity.
Qed.

Lemma append_assoc (a b c : string) : (a ++ b) ++ c = a ++ (b ++ c).
Proof. induction a; simpl; congruence. Qed.

(** [includes] is the substring relation. *)
Lemma includes_spec (s sub : string) :
  includes s sub = true <-> exists p q, s = p ++ sub ++ q.
Proof.
  split.
  - induction s as [|c s IH]; intros H; cbn [includes] in H.
    + rewrite orb_false_r in H. destruct (startsWith_inv _ _ H) as [q Hq].
      exists EmptyString, q. exact Hq.
    + apply orb_true_iff in H. destruct H as [H|H].
      * destruct (startsWith_inv _ _ H) as [q Hq].
        exists EmptyString, q. exact Hq.
      * destruct (IH H) as (p & q & ->).
        exists (String c p), q. reflexivity.
  - intros (p & q & ->). induction p as [|c p IH].
    + change (EmptyString ++ sub ++ q) with (sub ++ q).
      destruct (sub ++ q) eqn:E; cbn [includes]; rewrite <- E;
        rewrite startsWith_app; reflexivity.
    + change (String c p ++ sub ++ q) with (String c (p ++ sub ++ q)).
      cbn [includes]. rewrite IH. apply orb_true_r.
Qed.

(** A string that contains [a ++ b] contains [b]. *)
Lemma includes_suffix (s a b : string) :
  includes s (a ++ b) = true -> includes s b = true.
Proof.
  intros H. apply includes_spec in H. destruct H as (p & q & ->).
  apply includes_spec. exists (p ++ a), q.
  rewrite !append_assoc. reflexivity.
Qed.

End StringFacts.

(* ===================================================================== *)
(** ** Facts about time values *)
(* ===================================================================== *)

Section TimeFacts.

Lemma msPerDay_eq : msPerDay = 86400000.
Proof. reflexivity. Qed.


Lemma Day_MakeDate (d time : Z) :
  0 <= time < msPerDay -> Day (MakeDate d time) = d.
Proof.
  intros Ht. unfold Day, MakeDate. rewrite msPerDay_eq in *.
  symmetry. apply (Z.div_unique_pos _ _ d time); lia.
Qed.

Lemma TimeWithinDay_MakeDate (d time : Z) :
  0 <= time < msPerDay -> TimeWithinDay (MakeDate d time) = time.
Proof.
  intros Ht. unfold TimeWithinDay, MakeDate. rewrite msPerDay_eq in *.
  symmetry. apply (Z.mod_unique_pos _ _ d time); lia.
Qed.




(** In a year that is not leap, February has no 29th day. *)
Lemma no_Feb_29_in_common_year (t : Z) :
  isLeapYear (YearFromTime t) = false ->
  MonthFromTime t = 1 -> DateFromTime t <= 28.
Proof.
  intros Hleap Hm. unfold DateFromTime. rewrite Hm.
  unfold MonthFromTime in Hm. unfold InLeapYear in *. rewrite Hleap in *.
  unfold monthOfDayInYear in Hm. cbn [monthStart] in *.
  repeat match type of Hm with
         | (if ?c then _ else _) = _ => destruct c eqn:?; try discriminate
         end.
  apply Z.ltb_lt in Heqb0. lia.
Qed.

Lemma civil_never_Feb_29_1900 (t : Z) : civil t <> (1900, 2, 29).
Proof.
  unfold civil. intros H. injection H as Hy Hm Hd.
  assert (Hm' : MonthFromTime t = 1) by lia.
  pose proof (no_Feb_29_in_common_year t ltac:(rewrite Hy; reflexivity) Hm').
  lia.
Qed.

(** [YearFromDay] meets its specification: the year of a day number is the
    one whose first day is the last at or before it. *)
Lemma YearFromDay_spec (d : Z) :
  DayFromYear (YearFromDay d) <= d < DayFromYear (YearFromDay d + 1).
Proof.
  unfold YearFromDay.
  set (y := 1970 + d * 400 / 146097).
  assert (Hy : DayFromYear (y - 1) <= d < DayFromYear (y + 2)).
  { subst y. unfold DayFromYear. Z.div_mod_to_equations. lia. }
  destruct (DayFromYear (y + 1) <=? d) eqn:E1.
  - apply Z.leb_le in E1. replace (y + 1 + 1) with (y + 2) by lia. lia.
  - apply Z.leb_gt in E1. destruct (DayFromYear y <=? d) eqn:E2.
    + apply Z.leb_le in E2. lia.
    + apply Z.leb_gt in E2. replace (y - 1 + 1) with y by lia. lia.
Qed.

End TimeFacts.

(* ===================================================================== *)
(** ** Dates in local time *)
(* ===================================================================== *)

Section DateFacts.

Context {host : Host}.

Lemma LocalTime_UTC (t : Z) : LocalTime (UTC t) = t.
Proof. unfold LocalTime, UTC. lia. Qed.

Lemma LocalTime_setHours (t hour min sec ms : Z) :
  LocalTime (setHours t hour min sec ms)
  = MakeDate (Day (LocalTime t)) (MakeTime hour min sec ms).
Proof. unfold setHours. apply LocalTime_UTC. Qed.






Lemma startOfDay_day (t : Z) :
  Day (LocalTime (setHours t 0 0 0 0)) = Day (LocalTime t).
Proof.
  rewrite LocalTime_setHours. apply Day_MakeDate.
  rewrite msPerDay_eq. unfold MakeTime. lia.
Qed.


(** The epoch of the serial decoder is local midnight of 1899-12-30, and a
    whole serial [k] decodes to local midnight [k] days later. *)
Lemma excelDateToJSDate_whole (k : Z) :
  excelDateToJSDate (inject_Z k)
  = Some (UTC (MakeDate (MakeDay 1899 11 30 + k) 0)).
Proof.
  unfold excelDateToJSDate, Date_ymd, Date_of_number.
  change (ToIntegerOrInfinity (1899 # 1)) with 1899.
  change (ToIntegerOrInfinity (11 # 1)) with 11.
  change (ToIntegerOrInfinity (30 # 1)) with 30.
  change ((0 <=? 1899) && (1899 <=? 99)) with false. cbv iota.
  change (MakeTime 0 0 0 0) with 0.
  f_equal. unfold ToIntegerOrInfinity, inject_Z, Qplus, Qmult, Qnum, Qden.
  change (Z.pos (1 * (1 * 1))) with 1. rewrite Z.quot_1_r.
  unfold MakeDate, UTC. change (24 * 60 * 60 * 1000) with msPerDay. lia.
Qed.

Lemma localDay_excelDate_whole (k : Z) :
  localDay (excelDateToJSDate (inject_Z k))
  = Some (civil ((MakeDay 1899 11 30 + k) * msPerDay)).
Proof.
  rewrite excelDateToJSDate_whole. unfold localDay, option_map.
  rewrite LocalTime_UTC. unfold MakeDate. rewrite Z.add_0_r. reflexivity.
Qed.

End DateFacts.

(** C3, as the code has it.  The serial decoder counts days from local
    midnight of 1899-12-30: serial 1 is 1899-12-31, serial 60 is 1900-02-28
    and serial 61 is 1900-03-01; no serial at all decodes to a 29th of
    February 1900, a day the calendar of [Date] does not have. *)
Theorem C3_serial_decoding :
  forall (host : Host),
    localDay (excelDateToJSDate (inject_Z 1)) = Some (1899, 12, 31)
    /\ localTimeOfDay (excelDateToJSDate (inject_Z 1)) = Some 0
    /\ localDay (excelDateToJSDate (inject_Z 60)) = Some (1900, 2, 28)
    /\ localDay (excelDateToJSDate (inject_Z 61)) = Some (1900, 3, 1)
    /\ forall serial : Q,
         localDay (excelDateToJSDate serial) <> Some (1900, 2, 29).
Proof.
  intros host. repeat split.
  - rewrite localDay_excelDate_whole. vm_compute. reflexivity.
  - rewrite excelDateToJSDate_whole. unfold localTimeOfDay, option_map.
    rewrite LocalTime_UTC. rewrite TimeWithinDay_MakeDate; [reflexivity|].
    rewrite msPerDay_eq. lia.
  - rewrite localDay_excelDate_whole. vm_compute. reflexivity.
  - rewrite localDay_excelDate_whole. vm_compute. reflexivity.
  - intros serial. destruct (excelDateToJSDate serial) as [t|];
      [|discriminate]. unfold localDay, option_map.
    intros Hc. apply (civil_never_Feb_29_1900 (LocalTime t)).
    congruence.
Qed.

(** C3, as the specification words it, fails: serial 60 is not decoded to
    1900-02-29. *)
Lemma C3_serial_60_is_not_Feb_29 :
  ~ (localDay (host := SampleHost.plainHost)
       (excelDateToJSDate (host := SampleHost.plainHost) (inject_Z 1))
     = Some (1899, 12, 31)
     /\ localDay (host := SampleHost.plainHost)
          (excelDateToJSDate (host := SampleHost.plainHost) (inject_Z 60))
        = Some (1900, 2, 29)).
Proof.
  intros [_ H]. vm_compute in H. discriminate H.
Qed.

(* ===================================================================== *)
(** ** The two status classifiers *)
(* ===================================================================== *)

Section ClassifierFacts.

Context {host : Host}.



Lemma detectStatusFromSummary_range (summary : string) :
  detectStatusFromSummary summary = vacation
  \/ detectStatusFromSummary summary = school
  \/ detectStatusFromSummary summary = unavailable
  \/ detectStatusFromSummary summary = available.
Proof.
  unfold detectStatusFromSummary.
  repeat match goal with
         | |- context [if ?c then _ else _] => destruct c
         end; auto.
Qed.

(** The branch of line 421 cannot be taken: a text with "indisponible" inside
    has "disponible" inside. *)
Lemma cellStatus_never_unavailable (cellValue : string) :
  cellStatus cellValue <> unavailable.
Proof.
  unfold cellStatus.
  destruct (String.eqb cellValue "7" || String.eqb cellValue "7.00");
    [discriminate|].
  destruct (includes (toLowerCase cellValue) "férié"
            || includes (toLowerCase cellValue) "ferie"); [discriminate|].
  destruct (includes (toLowerCase cellValue) "vacances"
            || includes (toLowerCase cellValue) "exam"); [discriminate|].
  destruct (includes (toLowerCase cellValue) "disponible") eqn:Hd;
    [discriminate|].
  destruct (includes (toLowerCase cellValue) "indisponible") eqn:Hi;
    [|discriminate].
  apply (includes_suffix _ "in" "disponible") in Hi. congruence.
Qed.

Lemma cellStatus_company (cellValue : string) :
  cellStatus cellValue = company <->
  (String.eqb cellValue "7" || String.eqb cellValue "7.00"
   || includes (toLowerCase cellValue) "férié"
   || includes (toLowerCase cellValue) "ferie"
   || includes (toLowerCase cellValue) "vacances"
   || includes (toLowerCase cellValue) "exam"
   || includes (toLowerCase cellValue) "disponible"
   || includes (toLowerCase cellValue) "indisponible") = false.
Proof.
  unfold cellStatus.
  repeat match goal with
         | |- context [includes ?a ?b] => destruct (includes a b)
         | |- context [String.eqb ?a ?b] => destruct (String.eqb a b)
         end; simpl; split; congruence.
Qed.

End ClassifierFacts.



(** C10.  The free-text classifier answers on every text, with one of
    [vacation], [school], [unavailable], [available] and never [company];
    "entreprise" alone leads to [available]; in the weekly grid, [company] is
    the answer of the last branch only, the one reached when no test holds. *)
Theorem C10_text_classifier_never_company :
  forall (host : Host) (summary : string),
    In (detectStatusFromSummary summary)
       [ vacation; school; unavailable; available ]
    /\ detectStatusFromSummary summary <> company
    /\ (includes (toLowerCase summary) "entreprise" = true ->
        existsb (includes (toLowerCase summary))
                (vacationKeywords ++ schoolKeywords ++ unavailableKeywords)
        = false ->
        detectStatusFromSummary summary = available)
    /\ forall cellValue : string,
         cellStatus cellValue = company <->
         (String.eqb cellValue "7" || String.eqb cellValue "7.00"
          || includes (toLowerCase cellValue) "férié"
          || includes (toLowerCase cellValue) "ferie"
          || includes (toLowerCase cellValue) "vacances"
          || includes (toLowerCase cellValue) "exam"
          || includes (toLowerCase cellValue) "disponible"
          || includes (toLowerCase cellValue) "indisponible") = false.
Proof.
  intros host summary.
  pose proof (detectStatusFromSummary_range summary) as Hr.
  repeat split.
  - simpl. intuition auto.
  - intros Hc. rewrite Hc in Hr. intuition discriminate.
  - intros He Hnone. unfold detectStatusFromSummary. rewrite He.
    cbn [existsb vacationKeywords schoolKeywords unavailableKeywords app]
      in Hnone.
    repeat (apply orb_false_iff in Hnone; destruct Hnone as [? Hnone]).
    repeat match goal with
           | H : includes _ _ = false |- _ => rewrite H; clear H
           end.
    reflexivity.
  - apply cellStatus_company.
  - apply cellStatus_company.
Qed.

(** C4, at the failing input.  A weekday cell that reads "indisponible" is
    given the status [available]: the test for "disponible" comes first and
    holds of every text with "indisponible" inside, so that no cell at all is
    given [unavailable].  A cell that is neither "7" nor "7.00", has none of
    "férié", "ferie", "vacances", "exam" inside and has "disponible" inside is
    given [available]. *)
Theorem C4_indisponible_cell_is_available :
  cellStatus (host := SampleHost.plainHost) "indisponible" = available
  /\ cellStatus (host := SampleHost.plainHost) "Indisponible lundi" = available
  /\ (forall (host : Host) (cellValue : string),
        cellStatus cellValue <> unavailable)
  /\ (forall (host : Host) (cellValue : string),
        (String.eqb cellValue "7" || String.eqb cellValue "7.00"
         || includes (toLowerCase cellValue) "férié"
         || includes (toLowerCase cellValue) "ferie"
         || includes (toLowerCase cellValue) "vacances"
         || includes (toLowerCase cellValue) "exam") = false ->
        includes (toLowerCase cellValue) "disponible" = true ->
        cellStatus cellValue = available).
Proof.
  split; [vm_compute; reflexivity|].
  split; [vm_compute; reflexivity|].
  split; [intros host cellValue; apply cellStatus_never_unavailable|].
  intros host cellValue Hnone Hd. unfold cellStatus.
  repeat (apply orb_false_iff in Hnone; destruct Hnone as [Hnone ?]).
  repeat match goal with
         | H : _ = false |- _ => rewrite H; clear H
         end.
  rewrite Hd. reflexivity.
Qed.

(* ===================================================================== *)
(** ** The result invariant *)
(* ===================================================================== *)

Section ResultFacts.

Context {host : Host}.

Lemma failure_invariant (messages : list string) (w : option (list string)) :
  resultInvariant
    {| success := false; events := []; errors := Some messages;
       warnings := w |}.
Proof. split; simpl; [discriminate | reflexivity]. Qed.

Lemma outcome_invariant (evs : list CalendarEvent) (message : string)
    (w : option (list string)) :
  resultInvariant
    match evs with
    | [] =>
        {| success := false; events := []; errors := Some [ message ];
           warnings := w |}
    | _ :: _ =>
        {| success := true; events := evs; errors := None; warnings := w |}
    end.
Proof.
  destruct evs as [|e evs].
  - apply failure_invariant.
  - split; simpl; [intros _; lia | discriminate].
Qed.

Lemma parseWeeklyCalendarFormat_invariant (worksheet : Worksheet)
    (columnMap : ColumnMap) (dataStartRow : nat) (memberId : string) :
  resultInvariant
    (parseWeeklyCalendarFormat worksheet columnMap dataStartRow memberId).
Proof.
  unfold parseWeeklyCalendarFormat.
  destruct (findColumn _ columnMap) as [[|dateColIndex]|];
    destruct (weekdayColumnsOf columnMap) as [|wc wcs];
    try apply failure_invariant.
  destruct (fold_left _ _ _) as [evs warns]. apply outcome_invariant.
Qed.

Lemma parseExcelFile_invariant (file : File) (memberId : string) :
  resultInvariant (parseExcelFile file memberId).
Proof.
  unfold parseExcelFile.
  destruct (XLSX_load (content file)) as [message|[|worksheet rest]];
    try apply failure_invariant.
  destruct (detectHeader worksheet) as [columnMap dataStartRow].
  destruct columnMap as [|entry columnMap]; [apply failure_invariant|].
  destruct (isWeeklyCalendarFormat _);
    [apply parseWeeklyCalendarFormat_invariant|].
  destruct (negb _); [apply failure_invariant|].
  destruct (fold_left _ _ _) as [evs warns]. apply outcome_invariant.
Qed.

Lemma parseCSVFile_invariant (file : File) (memberId : string) :
  resultInvariant (parseCSVFile file memberId).
Proof.
  unfold parseCSVFile.
  destruct (isEmpty (content file) || isEmpty (trim (content file)));
    [apply failure_invariant|].
  destruct (parseSimpleCSV (content file)) as [|row rows];
    [apply failure_invariant|].
  destruct (fold_left _ _ _) as [evs warns]. apply outcome_invariant.
Qed.

Lemma parseICSFile_invariant (file : File) (memberId : string) :
  resultInvariant (parseICSFile file memberId).
Proof.
  unfold parseICSFile.
  destruct (isEmpty (content file) || isEmpty (trim (content file)));
    [apply failure_invariant|].
  destruct (ICAL_parse (content file)) as [message|message|[|vevent vevents]];
    try apply failure_invariant.
  destruct (fold_left _ _ _) as [evs warns]. apply outcome_invariant.
Qed.

Lemma routeCalendarFile_invariant
    (ics xlsx csv : File -> string -> CalendarParseResult) :
  (forall file memberId, resultInvariant (ics file memberId)) ->
  (forall file memberId, resultInvariant (xlsx file memberId)) ->
  (forall file memberId, resultInvariant (csv file memberId)) ->
  forall file memberId,
    resultInvariant (routeCalendarFile ics xlsx csv file memberId).
Proof.
  intros Hics Hxlsx Hcsv file memberId. unfold routeCalendarFile.
  destruct (isEmpty (extensionOf file)); [apply failure_invariant|].
  destruct (String.eqb (extensionOf file) "ics"); [apply Hics|].
  destruct (String.eqb (extensionOf file) "xlsx"
            || String.eqb (extensionOf file) "xls"); [apply Hxlsx|].
  destruct (String.eqb (extensionOf file) "csv"); [apply Hcsv|].
  apply failure_invariant.
Qed.

End ResultFacts.

(** C1.  Whatever the file and the member identifier, the result of
    [parseCalendarFile], [parseICSFile], [parseExcelFile] and [parseCSVFile]
    (and of the weekly-grid parser) has events when it reports success, and
    reports failure when it carries a non-empty error list. *)
Theorem C1_result_invariant :
  forall (host : Host) (file : File) (memberId : string),
    resultInvariant (parseCalendarFile file memberId)
    /\ resultInvariant (parseICSFile file memberId)
    /\ resultInvariant (parseExcelFile file memberId)
    /\ resultInvariant (parseCSVFile file memberId)
    /\ forall worksheet columnMap dataStartRow,
         resultInvariant
           (parseWeeklyCalendarFormat worksheet columnMap dataStartRow memberId).
Proof.
  intros host file memberId.
  split; [|split; [|split; [|split]]].
  - unfold parseCalendarFile. apply routeCalendarFile_invariant.
    + apply parseICSFile_invariant.
    + apply parseExcelFile_invariant.
    + apply parseCSVFile_invariant.
  - apply parseICSFile_invariant.
  - apply parseExcelFile_invariant.
  - apply parseCSVFile_invariant.
  - intros worksheet columnMap dataStartRow.
    apply parseWeeklyCalendarFormat_invariant.
Qed.

(* ===================================================================== *)
(** ** Routing on the extension *)
(* ===================================================================== *)

Section RoutingFacts.

Context {host : Host}.

Lemma unsupportedFormat_names_set (extension : string) :
  namesSupportedSet (unsupportedFormat extension).
Proof.
  exists [ "Format de fichier non supporté: ." ++ extension;
           "Formats supportés: .ics, .xlsx, .xls, .csv" ],
         "Formats supportés: .ics, .xlsx, .xls, .csv".
  split; [reflexivity|]. split; [simpl; auto|]. vm_compute. reflexivity.
Qed.

(** With an extension outside the supported ones, the routing answers by
    itself, whatever the three format parsers are. *)
Lemma routeCalendarFile_unsupported
    (ics xlsx csv : File -> string -> CalendarParseResult)
    (file : File) (memberId : string) :
  ~ In (extensionOf file) supportedExtensions ->
  routeCalendarFile ics xlsx csv file memberId
  = if isEmpty (extensionOf file) then unknownFormat
    else unsupportedFormat (extensionOf file).
Proof.
  intros Hnot. unfold routeCalendarFile.
  destruct (isEmpty (extensionOf file)); [reflexivity|].
  destruct (String.eqb_spec (extensionOf file) "ics") as [E|_];
    [exfalso; apply Hnot; rewrite E; simpl; auto|].
  destruct (String.eqb_spec (extensionOf file) "xlsx") as [E|_];
    [exfalso; apply Hnot; rewrite E; simpl; auto|].
  destruct (String.eqb_spec (extensionOf file) "xls") as [E|_];
    [exfalso; apply Hnot; rewrite E; simpl; auto|].
  destruct (String.eqb_spec (extensionOf file) "csv") as [E|_];
    [exfalso; apply Hnot; rewrite E; simpl; auto|].
  reflexivity.
Qed.

End RoutingFacts.

(** C6, as the code has it.  When the lower-cased extension of the file name
    is none of ics, xlsx, xls, csv, [parseCalendarFile] fails with no event
    and calls no format parser: its answer is the same whatever parsers the
    routing is given.  When that extension is not empty the two error
    messages name it and list the supported formats; when it is empty (a name
    that is empty or ends with a dot) the only message says that the format
    cannot be determined. *)
Theorem C6_unsupported_extension :
  forall (host : Host) (ics xlsx csv : File -> string -> CalendarParseResult)
         (file : File) (memberId : string),
    ~ In (extensionOf file) supportedExtensions ->
    parseCalendarFile file memberId
    = routeCalendarFile ics xlsx csv file memberId
    /\ success (parseCalendarFile file memberId) = false
    /\ events (parseCalendarFile file memberId) = []
    /\ (extensionOf file <> EmptyString ->
        parseCalendarFile file memberId = unsupportedFormat (extensionOf file)
        /\ namesSupportedSet (parseCalendarFile file memberId))
    /\ (extensionOf file = EmptyString ->
        parseCalendarFile file memberId = unknownFormat).
Proof.
  intros host ics xlsx csv file memberId Hnot.
  unfold parseCalendarFile.
  rewrite !(routeCalendarFile_unsupported _ _ _ file memberId Hnot).
  split; [reflexivity|].
  destruct (extensionOf file) as [|c ext] eqn:Hext; cbn [isEmpty].
  - split; [reflexivity|]. split; [reflexivity|]. split.
    + intros Habs. contradiction.
    + intros _. reflexivity.
  - split; [reflexivity|]. split; [reflexivity|]. split.
    + intros _. split; [reflexivity|]. apply unsupportedFormat_names_set.
    + discriminate.
Qed.

Lemma C6_unsupported_extension_witness :
  parseCalendarFile (host := SampleHost.plainHost)
    {| name := "notes.TXT"; content := "BEGIN:VCALENDAR" |} "member-1"
  = unsupportedFormat "txt".
Proof.
  refine (proj1 (proj1 (proj2 (proj2 (proj2
    (C6_unsupported_extension SampleHost.plainHost
       (fun _ _ => unknownFormat) (fun _ _ => unknownFormat)
       (fun _ _ => unknownFormat)
       {| name := "notes.TXT"; content := "BEGIN:VCALENDAR" |} "member-1"
       _)))) _)).
  - vm_compute. intuition discriminate.
  - vm_compute. discriminate.
Defined.

(** C6, as the specification words it, fails on a file name that ends with a
    dot: the extension is empty, hence none of the four, and the error does
    not list the supported formats. *)
Lemma C6_empty_extension_counterexample :
  ~ (~ In (extensionOf (host := SampleHost.plainHost) SampleHost.dottedFile)
          supportedExtensions ->
     success (parseCalendarFile (host := SampleHost.plainHost)
                SampleHost.dottedFile "member-1") = false
     /\ events (parseCalendarFile (host := SampleHost.plainHost)
                  SampleHost.dottedFile "member-1") = []
     /\ namesSupportedSet
          (parseCalendarFile (host := SampleHost.plainHost)
             SampleHost.dottedFile "member-1")).
Proof.
  intros Hclaim.
  assert (Hnot : ~ In (extensionOf (host := SampleHost.plainHost)
                         SampleHost.dottedFile)
                     supportedExtensions).
  { vm_compute. intuition discriminate. }
  destruct (Hclaim Hnot) as (_ & _ & messages & message & Herr & Hin & Hinc).
  vm_compute in Herr. injection Herr as <-.
  destruct Hin as [<-|[]]. vm_compute in Hinc. discriminate.
Qed.

(* ===================================================================== *)
(** ** Day normalisation of the events *)
(* ===================================================================== *)

Section NormalisationFacts.

Context {host : Host}.

Lemma fold_left_invariant {A B : Type} (P : A -> Prop) (f : A -> B -> A) :
  (forall a b, P a -> P (f a b)) ->
  forall (l : list B) (a : A), P a -> P (fold_left f l a).
Proof.
  intros Hstep l. induction l as [|b l IH]; intros a Ha; simpl.
  - exact Ha.
  - apply IH. apply Hstep. exact Ha.
Qed.















End NormalisationFacts.



(* ===================================================================== *)
(** ** Choosing between the weekly grid and the table *)
(* ===================================================================== *)

Section FormatFacts.

Context {host : Host}.





End FormatFacts.




(* ===================================================================== *)
(** ** The weekly grid: weekday columns *)
(* ===================================================================== *)

Section WeekdayColumnFacts.


Lemma lookupDay_weekdayName (offset : Z) :
  0 <= offset <= 6 -> lookupDay dayMapping (weekdayName offset) = Some offset.
Proof.
  intros H.
  assert (Hcases : offset = 0 \/ offset = 1 \/ offset = 2 \/ offset = 3
                   \/ offset = 4 \/ offset = 5 \/ offset = 6) by lia.
  destruct Hcases as [->|[->|[->|[->|[->|[->| ->]]]]]]; reflexivity.
Qed.













End WeekdayColumnFacts.

(* ===================================================================== *)
(** ** The weekly grid: one row *)
(* ===================================================================== *)

Section WeekRowFacts.

Context {host : Host}.






End WeekRowFacts.






(** An anchor text with a day past the end of its month is a date for the
    loop: the day count carries into the next month. *)
Lemma anchorDate_carries_over :
  localDay (host := SampleHost.plainHost)
    (anchorDate (host := SampleHost.plainHost) "31/02/2025")
  = Some (2025, 3, 3).
Proof. vm_compute. reflexivity. Qed.

(** The sample grid: Monday 13 January 2025 with "7" in the LU column gives a
    [school] event on that day. *)
Lemma sample_grid_monday :
  nth_error
    (events (parseCalendarFile (host := SampleHost.gridHost)
               SampleHost.gridFile "member-1")) 0
  = Some SampleHost.mondayEvent
  /\ localDay (host := SampleHost.gridHost)
       (startDate SampleHost.mondayEvent) = Some (2025, 1, 13).
Proof. split; vm_compute; reflexivity. Qed.

(* ===================================================================== *)
(** ** The column map built by the header search *)
(* ===================================================================== *)

Section ColumnMapFacts.

Context {host : Host}.

Lemma Map_set_keys (m : ColumnMap) (key : string) (v : nat) :
  Map_keys (Map_set m key v)
  = if existsb (String.eqb key) (Map_keys m) then Map_keys m
    else (Map_keys m ++ [ key ])%list.
Proof.
  induction m as [|[k w] m IH]; cbn [Map_set Map_keys map fst existsb].
  - reflexivity.
  - rewrite (String.eqb_sym key k).
    destruct (String.eqb k key); cbn [orb map fst]; [reflexivity|].
    fold (Map_keys (Map_set m key v)). fold (Map_keys m). rewrite IH.
    destruct (existsb (String.eqb key) (Map_keys m)); reflexivity.
Qed.

Lemma Map_set_NoDup (m : ColumnMap) (key : string) (v : nat) :
  NoDup (Map_keys m) -> NoDup (Map_keys (Map_set m key v)).
Proof.
  intros Hno. rewrite Map_set_keys.
  destruct (existsb (String.eqb key) (Map_keys m)) eqn:E; [exact Hno|].
  apply NoDup_app; [exact Hno | repeat constructor; intros [] |].
  intros k Hk [Heq|[]]. subst k.
  assert (existsb (String.eqb key) (Map_keys m) = true).
  { apply existsb_exists. exists key.
    split; [exact Hk | apply String.eqb_refl]. }
  congruence.
Qed.

Lemma scanRow_NoDup (row : Row) : NoDup (Map_keys (fst (scanRow row))).
Proof.
  unfold scanRow.
  apply (fold_left_invariant (fun acc => NoDup (Map_keys (fst acc)))).
  - intros [tempMap rowValues] [cell colNumber] Hno. cbn [headerCell].
    destruct (negb _ && negb _); cbn [fst]; [|exact Hno].
    apply Map_set_NoDup. exact Hno.
  - constructor.
Qed.

(** The column map of a sheet has one entry per column name, as a [Map]
    has. *)
Lemma detectHeader_NoDup (worksheet : Worksheet) :
  NoDup (Map_keys (fst (detectHeader worksheet))).
Proof.
  unfold detectHeader.
  induction (rowNumbers 1 (Nat.min 10 (rowCount worksheet))) as [|rowNum rest IH];
    cbn [findHeader].
  - constructor.
  - pose proof (scanRow_NoDup (getRow worksheet rowNum)) as Hrow.
    destruct (scanRow (getRow worksheet rowNum)) as [tempMap rowValues].
    destruct (isHeaderRow tempMap rowValues); [exact Hrow | exact IH].
Qed.

End ColumnMapFacts.

(* ===================================================================== *)
(** ** One outcome per record *)
(* ===================================================================== *)

Section AccountingFacts.

Context {host : Host}.

(** A loop whose passes each add [weight] to a measure of the state adds the
    weights of all the records. *)
Lemma fold_left_measure {A B : Type} (f : A -> B -> A) (measure : A -> nat)
    (weight : B -> nat) :
  (forall a b, measure (f a b) = (measure a + weight b)%nat) ->
  forall (l : list B) (a : A),
    measure (fold_left f l a) = (measure a + list_sum (map weight l))%nat.
Proof.
  intros Hstep l. induction l as [|b l IH]; intros a; simpl.
  - lia.
  - rewrite IH, Hstep. lia.
Qed.

Lemma list_sum_indicator {B : Type} (p : B -> bool) (l : list B) :
  list_sum (map (fun b => if p b then 1%nat else 0%nat) l)
  = List.length (filter p l).
Proof.
  induction l as [|b l IH]; simpl; [reflexivity|].
  destruct (p b); simpl; lia.
Qed.


Lemma list_sum_ones {B : Type} (l : list B) :
  list_sum (map (fun _ : B => 1%nat) l) = List.length l.
Proof. induction l as [|b l IH]; simpl; lia. Qed.

(** The counts of the result built from the final state of a loop. *)
Lemma outcome_counts (evs : list CalendarEvent) (message : string)
    (warns : list string) (r : CalendarParseResult) :
  r = match evs with
      | [] =>
          {| success := false; events := []; errors := Some [ message ];
             warnings := optWarnings warns |}
      | _ :: _ =>
          {| success := true; events := evs; errors := None;
             warnings := optWarnings warns |}
      end ->
  events r = evs /\ warningList r = warns
  /\ warningCount r = List.length warns.
Proof.
  intros ->. destruct evs as [|e evs]; destruct warns as [|w warns]; cbn; auto.
Qed.

Lemma veventStep_one (memberId : string)
    (state : list CalendarEvent * list string) (veventComp : VEventComponent) :
  stateSize (veventStep memberId state veventComp) = (stateSize state + 1)%nat.
Proof.
  destruct state as [evs warns]. unfold veventStep, stateSize.
  destruct veventComp as [raw|event]; cbn [fst snd];
    [rewrite length_app; cbn [List.length]; lia|].
  destruct (ev_startDate event) as [[|[s|]]|];
    destruct (ev_endDate event) as [[|[t|]]|];
    cbn [isInvalid orb fst snd];
    try (rewrite length_app; cbn [List.length]; lia).
  destruct (dateLt (Some t) (Some s)); cbn [fst snd];
    rewrite length_app; cbn [List.length]; lia.
Qed.

Lemma csvRow_one (memberId : string)
    (state : list CalendarEvent * list string) (entry : nat * CSVRow) :
  stateSize (csvRow memberId state entry) = (stateSize state + 1)%nat.
Proof.
  destruct state as [evs warns]. destruct entry as [index row].
  unfold csvRow, stateSize.
  destruct (getCSVValue row _) as [[|c v]|]; cbn [fst snd];
    try (rewrite length_app; cbn [List.length]; lia).
  destruct (parseDate (String c v)) as [s|]; cbn [isInvalid orb fst snd];
    [|rewrite length_app; cbn [List.length]; lia].
  destruct (parseDate _) as [t|]; cbn [isInvalid orb fst snd];
    [|rewrite length_app; cbn [List.length]; lia].
  destruct (dateLt (Some t) (Some s)); cbn [fst snd];
    rewrite length_app; cbn [List.length]; lia.
Qed.

Lemma tableRow_one (worksheet : Worksheet) (memberId : string)
    (columnMap : ColumnMap) (state : list CalendarEvent * list string)
    (rowNumber : nat) :
  stateSize (tableRow worksheet memberId columnMap state rowNumber)
  = (stateSize state
     + if hasValues (getRow worksheet rowNumber) then 1 else 0)%nat.
Proof.
  destruct state as [evs warns]. unfold tableRow, stateSize.
  destruct (hasValues (getRow worksheet rowNumber)); cbn [negb fst snd];
    [|lia].
  destruct (negb (truthy _)); cbn [fst snd];
    [rewrite length_app; cbn [List.length]; lia|].
  destruct (cellDate _) as [s|]; cbn [isInvalid orb fst snd];
    [|rewrite length_app; cbn [List.length]; lia].
  destruct (cellDate _) as [t|]; cbn [isInvalid orb fst snd];
    [|rewrite length_app; cbn [List.length]; lia].
  destruct (dateLt (Some t) (Some s)); cbn [fst snd];
    rewrite length_app; cbn [List.length]; lia.
Qed.




End AccountingFacts.

(** Every VEVENT of an iCalendar document that is read gives either one event
    or one warning: the events and the warnings of the result are as many as
    the VEVENT components. *)
Theorem parseICSFile_one_outcome_per_vevent :
  forall (host : Host) (file : File) (memberId : string)
         (vevents : list VEventComponent),
    isEmpty (content file) || isEmpty (trim (content file)) = false ->
    ICAL_parse (content file) = VEvents vevents ->
    (List.length (events (parseICSFile file memberId))
     + warningCount (parseICSFile file memberId))%nat
    = List.length vevents.
Proof.
  intros host file memberId vevents Hblank Hparse.
  unfold parseICSFile. rewrite Hblank, Hparse.
  destruct vevents as [|vevent vevents]; [reflexivity|].
  pose proof (fold_left_measure (veventStep memberId) stateSize
                (fun _ => 1%nat) (veventStep_one memberId)
                (vevent :: vevents) ([], [])) as Hfold.
  rewrite list_sum_ones in Hfold.
  destruct (fold_left (veventStep memberId) (vevent :: vevents) ([], []))
    as [evs warns].
  destruct (outcome_counts evs "Aucun événement valide trouvé" warns _ eq_refl)
    as (Hev & _ & Hw).
  rewrite Hev, Hw.
  unfold stateSize in Hfold. cbn [fst snd List.length] in *. lia.
Qed.

Lemma parseICSFile_one_outcome_per_vevent_witness :
  (List.length (events (parseICSFile (host := SampleHost.icsHost)
                          SampleHost.icsFile "member-1"))
   + warningCount (parseICSFile (host := SampleHost.icsHost)
                     SampleHost.icsFile "member-1"))%nat
  = 5%nat.
Proof.
  apply (parseICSFile_one_outcome_per_vevent SampleHost.icsHost
           SampleHost.icsFile "member-1" SampleHost.fiveEvents).
  - reflexivity.
  - reflexivity.
Defined.

Section LineFacts.

Context {host : Host}.

Lemma fold_left_invariant_in {A B : Type} (P : A -> Prop) (f : A -> B -> A)
    (l : list B) :
  (forall a b, In b l -> P a -> P (f a b)) ->
  forall a : A, P a -> P (fold_left f l a).
Proof.
  induction l as [|b l IH]; intros Hstep a Ha; cbn [fold_left].
  - exact Ha.
  - apply IH.
    + intros a' b' Hin. apply Hstep. right. exact Hin.
    + apply Hstep; [left; reflexivity | exact Ha].
Qed.

Lemma aboutLine_intro (n : nat) (rest : string) :
  aboutLine n ("Ligne " ++ ofNat n ++ ": " ++ rest).
Proof.
  unfold aboutLine.
  replace ("Ligne " ++ ofNat n ++ ": " ++ rest)
    with (("Ligne " ++ ofNat n ++ ": ") ++ rest)
    by (rewrite !append_assoc; reflexivity).
  apply startsWith_app.
Qed.

Lemma indexed_bound {A : Type} (l : list A) (index : nat) (x : A) :
  In (index, x) (indexed l) -> (index < List.length l)%nat.
Proof.
  unfold indexed. intros Hin. apply in_combine_l in Hin.
  apply in_seq in Hin. lia.
Qed.

(** The warnings of a pass over a delimited-text row are about its line. *)
Lemma csvRow_warnings (memberId : string) (bound : nat)
    (state : list CalendarEvent * list string) (index : nat) (row : CSVRow) :
  (index < bound)%nat ->
  Forall (fun w => exists i, (i < bound)%nat /\ aboutLine (i + 2) w)
         (snd state) ->
  Forall (fun w => exists i, (i < bound)%nat /\ aboutLine (i + 2) w)
         (snd (csvRow memberId state (index, row))).
Proof.
  intros Hindex Hstate. destruct state as [evs warns]. cbn [snd] in Hstate.
  assert (Hpush : forall rest,
             Forall (fun w => exists i, (i < bound)%nat /\ aboutLine (i + 2) w)
                    (app warns
                         [ "Ligne " ++ ofNat (index + 2) ++ ": " ++ rest ])).
  { intros rest. apply Forall_app. split; [exact Hstate|].
    constructor; [|constructor]. exists index.
    split; [exact Hindex | apply aboutLine_intro]. }
  unfold csvRow.
  destruct (getCSVValue row _) as [[|c v]|]; cbn [snd];
    try exact (Hpush "Date de début manquante").
  destruct (parseDate (String c v)) as [s|]; cbn [isInvalid orb snd];
    [|exact (Hpush "Date invalide")].
  destruct (parseDate _) as [t|]; cbn [isInvalid orb snd];
    [|exact (Hpush "Date invalide")].
  destruct (dateLt (Some t) (Some s)); cbn [snd];
    [exact (Hpush "Date de fin avant date de début") | exact Hstate].
Qed.

End LineFacts.

(** Every data row of a delimited text that is read gives either one event or
    one warning, and each warning is about the line of a data row: the row of
    index [i] (from 0) is line [i + 2], the header being line 1. *)
Theorem parseCSVFile_one_outcome_per_row :
  forall (host : Host) (file : File) (memberId : string),
    isEmpty (content file) || isEmpty (trim (content file)) = false ->
    (List.length (events (parseCSVFile file memberId))
     + warningCount (parseCSVFile file memberId))%nat
    = List.length (parseSimpleCSV (content file))
    /\ Forall (fun w =>
                 exists i : nat,
                   (i < List.length (parseSimpleCSV (content file)))%nat
                   /\ aboutLine (i + 2) w)
              (warningList (parseCSVFile file memberId)).
Proof.
  intros host file memberId Hblank.
  unfold parseCSVFile. rewrite Hblank.
  destruct (parseSimpleCSV (content file)) as [|row rows] eqn:Hrows.
  - split; [reflexivity | constructor].
  - pose proof (fold_left_measure (csvRow memberId) stateSize
                  (fun _ => 1%nat) (csvRow_one memberId)
                  (indexed (row :: rows)) ([], [])) as Hcount.
    rewrite list_sum_ones in Hcount.
    pose proof (fold_left_invariant_in
                  (fun st =>
                     Forall (fun w =>
                               exists i, (i < List.length (row :: rows))%nat
                                         /\ aboutLine (i + 2) w) (snd st))
                  (csvRow memberId) (indexed (row :: rows))) as Hlines.
    assert (Hwarn :
      Forall (fun w => exists i, (i < List.length (row :: rows))%nat
                                 /\ aboutLine (i + 2) w)
             (snd (fold_left (csvRow memberId) (indexed (row :: rows))
                             ([], [])))).
    { apply Hlines; [|constructor].
      intros st [index r] Hin Hst. apply csvRow_warnings; [|exact Hst].
      exact (indexed_bound _ _ _ Hin). }
    clear Hlines.
    destruct (fold_left (csvRow memberId) (indexed (row :: rows)) ([], []))
      as [evs warns].
    destruct (outcome_counts evs
                "Aucun événement valide trouvé dans le fichier CSV" warns _
                eq_refl) as (Hev & Hwl & Hw).
    rewrite Hev, Hw, Hwl. split; [|exact Hwarn].
    unfold stateSize, indexed in Hcount.
    rewrite length_combine, length_seq, Nat.min_id in Hcount.
    cbn [fst snd List.length] in *. lia.
Qed.

Lemma parseCSVFile_one_outcome_per_row_witness :
  (List.length (events (parseCSVFile (host := SampleHost.plainHost)
                          SampleHost.csvFile "member-1"))
   + warningCount (parseCSVFile (host := SampleHost.plainHost)
                     SampleHost.csvFile "member-1"))%nat
  = 4%nat.
Proof.
  refine (proj1 (parseCSVFile_one_outcome_per_row SampleHost.plainHost
                   SampleHost.csvFile "member-1" _)).
  vm_compute. reflexivity.
Defined.

(** In a table, every row of the data range that has values gives either one
    event or one warning, and the rows without values give nothing. *)
Theorem parseExcelFile_one_outcome_per_table_row :
  forall (host : Host) (file : File) (memberId : string)
         (worksheet : Worksheet) (others : list Worksheet)
         (columnMap : ColumnMap) (dataStartRow : nat),
    XLSX_load (content file) = Returns (worksheet :: others) ->
    detectHeader worksheet = (columnMap, dataStartRow) ->
    isWeeklyCalendarFormat columnMap = false ->
    hasTableDateColumn columnMap = true ->
    (List.length (events (parseExcelFile file memberId))
     + warningCount (parseExcelFile file memberId))%nat
    = List.length
        (filter (fun rowNumber => hasValues (getRow worksheet rowNumber))
                (rowNumbers dataStartRow (rowCount worksheet))).
Proof.
  intros host file memberId worksheet others columnMap dataStartRow
         Hload Hheader Hweekly Hdate.
  unfold parseExcelFile. rewrite Hload, Hheader.
  destruct columnMap as [|entry columnMap]; [discriminate Hdate|].
  rewrite Hweekly. unfold hasTableDateColumn in Hdate. rewrite Hdate.
  cbn [negb].
  pose proof (fold_left_measure
                (tableRow worksheet memberId (entry :: columnMap)) stateSize
                (fun rowNumber =>
                   if hasValues (getRow worksheet rowNumber) then 1%nat
                   else 0%nat)
                (tableRow_one worksheet memberId (entry :: columnMap))
                (rowNumbers dataStartRow (rowCount worksheet)) ([], []))
    as Hcount.
  rewrite list_sum_indicator in Hcount.
  destruct (fold_left _ _ _) as [evs warns].
  destruct (outcome_counts evs
              "Aucun événement valide trouvé dans le fichier Excel" warns _
              eq_refl) as (Hev & _ & Hw).
  rewrite Hev, Hw. unfold stateSize in Hcount.
  cbn [fst snd List.length] in *. lia.
Qed.

Lemma parseExcelFile_one_outcome_per_table_row_witness :
  (List.length (events (parseExcelFile (host := SampleHost.tableHost)
                          SampleHost.gridFile "member-1"))
   + warningCount (parseExcelFile (host := SampleHost.tableHost)
                     SampleHost.gridFile "member-1"))%nat
  = 3%nat.
Proof.
  apply (parseExcelFile_one_outcome_per_table_row SampleHost.tableHost
           SampleHost.gridFile "member-1" SampleHost.tableSheet []
           SampleHost.tableColumns 2%nat).
  - reflexivity.
  - vm_compute. reflexivity.
  - vm_compute. reflexivity.
  - vm_compute. reflexivity.
Defined.



(* ===================================================================== *)
(** ** What every event carries *)
(* ===================================================================== *)

Section StampFacts.

Context {host : Host}.

Lemma push_event (P : CalendarEvent -> Prop) (evs : list CalendarEvent)
    (e : CalendarEvent) :
  Forall P evs -> P e -> Forall P (evs ++ [e])%list.
Proof.
  intros Hevs He. apply Forall_app. split; [exact Hevs|].
  constructor; [exact He | constructor].
Qed.

Lemma labelEvent_intro (i member label : string) (s t : JSDate) :
  labelEvent member
    {| id := i; memberId := member; startDate := s; endDate := t;
       status := detectStatusFromSummary label; note := Some label;
       isImported := true |}.
Proof.
  split; [reflexivity|]. split; [reflexivity|].
  exists label. split; reflexivity.
Qed.

Lemma veventStep_labels (memberId : string)
    (state : list CalendarEvent * list string) (veventComp : VEventComponent) :
  Forall (labelEvent memberId) (fst state) ->
  Forall (labelEvent memberId) (fst (veventStep memberId state veventComp)).
Proof.
  destruct state as [evs warns]. unfold veventStep. cbn [fst]. intros Hevs.
  destruct veventComp as [raw|event]; [exact Hevs|].
  destruct (ev_startDate event) as [[|s]|];
    destruct (ev_endDate event) as [[|t]|]; try exact Hevs.
  destruct (isInvalid s || isInvalid t); [exact Hevs|].
  destruct (dateLt t s); [exact Hevs|].
  cbn [fst]. apply push_event; [exact Hevs | apply labelEvent_intro].
Qed.

Lemma csvRow_labels (memberId : string)
    (state : list CalendarEvent * list string) (entry : nat * CSVRow) :
  Forall (labelEvent memberId) (fst state) ->
  Forall (labelEvent memberId) (fst (csvRow memberId state entry)).
Proof.
  destruct state as [evs warns]. destruct entry as [index row].
  unfold csvRow. cbn [fst]. intros Hevs.
  destruct (getCSVValue row _) as [[|c v]|]; try exact Hevs.
  destruct (isInvalid _ || isInvalid _); [exact Hevs|].
  destruct (dateLt _ _); [exact Hevs|].
  cbn [fst]. apply push_event; [exact Hevs | apply labelEvent_intro].
Qed.




Lemma outcome_events (P : CalendarEvent -> Prop) (evs : list CalendarEvent)
    (message : string) (w : option (list string)) :
  Forall P evs ->
  Forall P
    (events
       match evs with
       | [] =>
           {| success := false; events := []; errors := Some [ message ];
              warnings := w |}
       | _ :: _ =>
           {| success := true; events := evs; errors := None; warnings := w |}
       end).
Proof. intros H. destruct evs; [constructor | exact H]. Qed.

Lemma parseICSFile_labels (file : File) (memberId : string) :
  Forall (labelEvent memberId) (events (parseICSFile file memberId)).
Proof.
  unfold parseICSFile.
  destruct (isEmpty (content file) || isEmpty (trim (content file)));
    [constructor|].
  destruct (ICAL_parse (content file)) as [message|message|[|vevent vevents]];
    try (constructor; fail).
  pose proof (fold_left_invariant
                (fun st => Forall (labelEvent memberId) (fst st))
                (veventStep memberId)
                (fun a b => veventStep_labels memberId a b)
                (vevent :: vevents) ([], []) (Forall_nil _)) as Hfold.
  destruct (fold_left _ _ _) as [evs warns].
  apply outcome_events. exact Hfold.
Qed.

Lemma parseCSVFile_labels (file : File) (memberId : string) :
  Forall (labelEvent memberId) (events (parseCSVFile file memberId)).
Proof.
  unfold parseCSVFile.
  destruct (isEmpty (content file) || isEmpty (trim (content file)));
    [constructor|].
  destruct (parseSimpleCSV (content file)) as [|row rows]; [constructor|].
  pose proof (fold_left_invariant
                (fun st => Forall (labelEvent memberId) (fst st))
                (csvRow memberId)
                (fun a b => csvRow_labels memberId a b)
                (indexed (row :: rows)) ([], []) (Forall_nil _)) as Hfold.
  destruct (fold_left _ _ _) as [evs warns].
  apply outcome_events. exact Hfold.
Qed.





Lemma labelEvent_not_company (member : string) (e : CalendarEvent) :
  labelEvent member e -> status e <> company.
Proof.
  intros (_ & _ & label & _ & Hs). rewrite Hs.
  pose proof (detectStatusFromSummary_range label) as Hr.
  intros Hc. rewrite Hc in Hr. intuition discriminate.
Qed.

End StampFacts.



(** The events of an iCalendar file and of a delimited text never have the
    status [company]: each has the status the text classifier gives to its
    note. *)
Theorem text_parsers_never_company :
  forall (host : Host) (file : File) (member : string) (e : CalendarEvent),
    In e (events (parseICSFile file member))
    \/ In e (events (parseCSVFile file member)) ->
    status e <> company
    /\ exists label : string,
         note e = Some label /\ status e = detectStatusFromSummary label.
Proof.
  intros host file member e Hin.
  assert (Hl : labelEvent member e).
  { destruct Hin as [Hin|Hin].
    - exact (proj1 (Forall_forall _ _) (parseICSFile_labels file member) e Hin).
    - exact (proj1 (Forall_forall _ _) (parseCSVFile_labels file member) e Hin). }
  split; [exact (labelEvent_not_company member e Hl)|].
  destruct Hl as (_ & _ & Hlabel). exact Hlabel.
Qed.

Lemma text_parsers_never_company_witness :
  status {| id := "import-0"; memberId := "member-1";
            startDate := Some SampleHost.jan13;
            endDate := Some (SampleHost.jan13 + 86399999);
            status := school; note := Some "Cours HETIC";
            isImported := true |} <> company.
Proof.
  refine (proj1 (text_parsers_never_company SampleHost.icsHost
                   SampleHost.icsFile "member-1" _ _)).
  left. vm_compute. left. reflexivity.
Defined.

(* ===================================================================== *)
(** ** Success and failure *)
(* ===================================================================== *)

Section ShapeFacts.

Context {host : Host}.

Lemma failure_shape (message : string) (others : list string)
    (w : option (list string)) :
  resultShape
    {| success := false; events := []; errors := Some (message :: others);
       warnings := w |}.
Proof.
  unfold resultShape. cbn. split; [reflexivity|].
  exists message, others. reflexivity.
Qed.

Lemma outcome_shape (evs : list CalendarEvent) (message : string)
    (w : option (list string)) :
  resultShape
    match evs with
    | [] =>
        {| success := false; events := []; errors := Some [ message ];
           warnings := w |}
    | _ :: _ =>
        {| success := true; events := evs; errors := None; warnings := w |}
    end.
Proof.
  destruct evs as [|e evs]; [apply failure_shape|].
  unfold resultShape. cbn. split; [reflexivity | discriminate].
Qed.

Lemma parseWeeklyCalendarFormat_shape (worksheet : Worksheet)
    (columnMap : ColumnMap) (dataStartRow : nat) (memberId : string) :
  resultShape
    (parseWeeklyCalendarFormat worksheet columnMap dataStartRow memberId).
Proof.
  unfold parseWeeklyCalendarFormat.
  destruct (findColumn _ columnMap) as [[|dateColIndex]|];
    destruct (weekdayColumnsOf columnMap) as [|wc wcs];
    try apply failure_shape.
  destruct (fold_left _ _ _) as [evs warns]. apply outcome_shape.
Qed.

Lemma parseExcelFile_shape (file : File) (memberId : string) :
  resultShape (parseExcelFile file memberId).
Proof.
  unfold parseExcelFile.
  destruct (XLSX_load (content file)) as [message|[|worksheet rest]];
    try apply failure_shape.
  destruct (detectHeader worksheet) as [columnMap dataStartRow].
  destruct columnMap as [|entry columnMap]; [apply failure_shape|].
  destruct (isWeeklyCalendarFormat _);
    [apply parseWeeklyCalendarFormat_shape|].
  destruct (negb _); [apply failure_shape|].
  destruct (fold_left _ _ _) as [evs warns]. apply outcome_shape.
Qed.

Lemma parseCSVFile_shape (file : File) (memberId : string) :
  resultShape (parseCSVFile file memberId).
Proof.
  unfold parseCSVFile.
  destruct (isEmpty (content file) || isEmpty (trim (content file)));
    [apply failure_shape|].
  destruct (parseSimpleCSV (content file)) as [|row rows];
    [apply failure_shape|].
  destruct (fold_left _ _ _) as [evs warns]. apply outcome_shape.
Qed.

Lemma parseICSFile_shape (file : File) (memberId : string) :
  resultShape (parseICSFile file memberId).
Proof.
  unfold parseICSFile.
  destruct (isEmpty (content file) || isEmpty (trim (content file)));
    [apply failure_shape|].
  destruct (ICAL_parse (content file)) as [message|message|[|vevent vevents]];
    try apply failure_shape.
  destruct (fold_left _ _ _) as [evs warns]. apply outcome_shape.
Qed.

Lemma parseCalendarFile_shape (file : File) (memberId : string) :
  resultShape (parseCalendarFile file memberId).
Proof.
  unfold parseCalendarFile, routeCalendarFile.
  destruct (isEmpty (extensionOf file)); [apply failure_shape|].
  destruct (String.eqb (extensionOf file) "ics"); [apply parseICSFile_shape|].
  destruct (String.eqb (extensionOf file) "xlsx"
            || String.eqb (extensionOf file) "xls");
    [apply parseExcelFile_shape|].
  destruct (String.eqb (extensionOf file) "csv"); [apply parseCSVFile_shape|].
  apply failure_shape.
Qed.

End ShapeFacts.

(** A result is of one of two shapes, for every parser: a success has no
    error list, a failure has no event (nothing of a file that fails is
    returned) and at least one error message. *)
Theorem failure_returns_no_event :
  forall (host : Host) (file : File) (memberId : string),
    resultShape (parseCalendarFile file memberId)
    /\ resultShape (parseICSFile file memberId)
    /\ resultShape (parseExcelFile file memberId)
    /\ resultShape (parseCSVFile file memberId)
    /\ forall worksheet columnMap dataStartRow,
         resultShape
           (parseWeeklyCalendarFormat worksheet columnMap dataStartRow memberId).
Proof.
  intros host file memberId.
  split; [apply parseCalendarFile_shape|].
  split; [apply parseICSFile_shape|].
  split; [apply parseExcelFile_shape|].
  split; [apply parseCSVFile_shape|].
  intros worksheet columnMap dataStartRow.
  apply parseWeeklyCalendarFormat_shape.
Qed.

(* ===================================================================== *)
(** ** The preview of an iCalendar file *)
(* ===================================================================== *)

Section SummaryFacts.

Context {host : Host}.

Lemma fold_increment (evs : list CalendarEvent) (counts : StatusCounts) :
  let final :=
    fold_left (fun c e => increment c (status e)) evs counts in
  count_company final
  = (count_company counts + List.length (withStatus company evs))%nat
  /\ count_available final
     = (count_available counts + List.length (withStatus available evs))%nat
  /\ count_unavailable final
     = (count_unavailable counts
        + List.length (withStatus unavailable evs))%nat
  /\ count_school final
     = (count_school counts + List.length (withStatus school evs))%nat
  /\ count_vacation final
     = (count_vacation counts + List.length (withStatus vacation evs))%nat.
Proof.
  revert counts. induction evs as [|e evs IH]; intros counts; cbn [fold_left].
  - cbn. repeat split; lia.
  - specialize (IH (increment counts (status e))).
    cbv zeta in IH |- *. destruct IH as (H1 & H2 & H3 & H4 & H5).
    rewrite H1, H2, H3, H4, H5. unfold withStatus. cbn [filter].
    destruct (status e); cbn; repeat split; lia.
Qed.

Lemma withStatus_total (evs : list CalendarEvent) :
  List.length evs
  = (List.length (withStatus company evs)
     + List.length (withStatus available evs)
     + List.length (withStatus unavailable evs)
     + List.length (withStatus school evs)
     + List.length (withStatus vacation evs))%nat.
Proof.
  unfold withStatus. induction evs as [|e evs IH]; cbn [filter List.length].
  - reflexivity.
  - destruct (status e); cbn; lia.
Qed.

Lemma withStatus_none (s : AvailabilityStatus) (evs : list CalendarEvent) :
  Forall (fun e => status e <> s) evs -> withStatus s evs = [].
Proof.
  unfold withStatus. induction 1 as [|e evs He Hevs IH]; cbn [filter].
  - reflexivity.
  - destruct (status e), s; cbn; try exact IH; contradiction He; reflexivity.
Qed.

End SummaryFacts.

(** The preview of an iCalendar file counts every event of the parse once:
    its total is the number of events, each counter is the number of events
    of its status, the counters add up to the total, the counter of [company]
    is always zero, and a file that fails to parse has total zero. *)
Theorem getICSFileSummary_counts :
  forall (host : Host) (file : File),
    total (getICSFileSummary file)
    = List.length (events (parseICSFile file "temp"))
    /\ count_available (byStatus (getICSFileSummary file))
       = List.length (withStatus available (events (parseICSFile file "temp")))
    /\ count_unavailable (byStatus (getICSFileSummary file))
       = List.length
           (withStatus unavailable (events (parseICSFile file "temp")))
    /\ count_school (byStatus (getICSFileSummary file))
       = List.length (withStatus school (events (parseICSFile file "temp")))
    /\ count_vacation (byStatus (getICSFileSummary file))
       = List.length (withStatus vacation (events (parseICSFile file "temp")))
    /\ count_company (byStatus (getICSFileSummary file)) = 0%nat
    /\ total (getICSFileSummary file)
       = (count_available (byStatus (getICSFileSummary file))
          + count_unavailable (byStatus (getICSFileSummary file))
          + count_school (byStatus (getICSFileSummary file))
          + count_vacation (byStatus (getICSFileSummary file)))%nat
    /\ (success (parseICSFile file "temp") = false ->
        total (getICSFileSummary file) = 0%nat).
Proof.
  intros host file. unfold getICSFileSummary. cbn [total byStatus].
  pose proof (fold_increment (events (parseICSFile file "temp")) noCounts)
    as Hfold.
  cbv zeta in Hfold. destruct Hfold as (Hc & Ha & Hu & Hs & Hv).
  cbn [noCounts count_company count_available count_unavailable count_school
       count_vacation Nat.add] in Hc, Ha, Hu, Hs, Hv.
  assert (Hnone : withStatus company (events (parseICSFile file "temp")) = []).
  { apply withStatus_none.
    eapply Forall_impl; [|apply (parseICSFile_labels file "temp")].
    intros e He. exact (labelEvent_not_company _ e He). }
  pose proof (withStatus_total (events (parseICSFile file "temp"))) as Htotal.
  rewrite Hnone in Hc, Htotal. cbn [List.length] in Hc, Htotal.
  repeat split; try assumption; try lia.
  intros Hfail. pose proof (parseICSFile_shape file "temp") as Hshape.
  unfold resultShape in Hshape. rewrite Hfail in Hshape.
  destruct Hshape as [Hempty _]. rewrite Hempty. reflexivity.
Qed.

(* ===================================================================== *)
(** ** Column lookup in a delimited-text row *)
(* ===================================================================== *)

Section CSVFacts.

Context {host : Host}.

Lemma Obj_get_In (row : CSVRow) (key v : string) :
  Obj_get row key = Some v -> In (key, v) row.
Proof.
  induction row as [|[k w] row IH]; cbn [Obj_get]; [discriminate|].
  destruct (String.eqb_spec k key) as [->|_].
  - intros H. injection H as ->. left. reflexivity.
  - intros H. right. apply IH. exact H.
Qed.

Lemma Obj_get_None (row : CSVRow) (key : string) :
  Obj_get row key = None <-> ~ In key (Obj_keys row).
Proof.
  induction row as [|[k w] row IH]; cbn [Obj_get Obj_keys map fst In].
  - tauto.
  - destruct (String.eqb_spec k key) as [->|Hne].
    + split; [discriminate | intros H; exfalso; apply H; left; reflexivity].
    + rewrite IH. unfold Obj_keys. tauto.
Qed.






(** What [getCSVValue] finds is the value of a column whose name is one of
    the names asked for, up to case. *)
Lemma getCSVValue_Some (row : CSVRow) (possibleNames : list string)
    (v : string) :
  getCSVValue row possibleNames = Some v ->
  exists name key : string,
    In name possibleNames /\ In (key, v) row
    /\ toLowerCase key = toLowerCase name.
Proof.
  induction possibleNames as [|name rest IH]; cbn [getCSVValue];
    [discriminate|].
  assert (Hfind :
    match find (fun e => String.eqb (toLowerCase (fst e)) (toLowerCase name))
               row with
    | Some (_, w) => Some w
    | None => getCSVValue row rest
    end = Some v ->
    exists name0 key, In name0 (name :: rest) /\ In (key, v) row
                      /\ toLowerCase key = toLowerCase name0).
  { destruct (find _ row) as [[k w]|] eqn:Hf.
    - intros H. injection H as ->. apply find_some in Hf.
      destruct Hf as [Hin Heq]. cbn [fst] in Heq. apply String.eqb_eq in Heq.
      exists name, k. split; [left; reflexivity|]. split; assumption.
    - intros H. destruct (IH H) as (n & k & Hn & Hk & Heq).
      exists n, k. split; [right; exact Hn|]. split; assumption. }
  destruct (Obj_get row name) as [[|c w]|] eqn:Hget; try exact Hfind.
  intros H. injection H as <-. exists name, name.
  split; [left; reflexivity|]. split; [|reflexivity].
  apply Obj_get_In. exact Hget.
Qed.

Lemma getCSVValue_None (row : CSVRow) (possibleNames : list string) :
  getCSVValue row possibleNames = None <->
  forall name key : string,
    In name possibleNames -> In key (Obj_keys row) ->
    toLowerCase key <> toLowerCase name.
Proof.
  induction possibleNames as [|name rest IH]; cbn [getCSVValue].
  - split; [intros _ name key [] | reflexivity].
  - split.
    + intros Hnone n key Hn Hkey.
      destruct (Obj_get row name) as [[|c w]|] eqn:Hget; try discriminate;
        (destruct (find _ row) as [[k w']|] eqn:Hf; [discriminate|];
         destruct Hn as [<-|Hn];
         [ apply in_map_iff in Hkey; destruct Hkey as ([k v] & <- & Hin);
           pose proof (find_none _ _ Hf _ Hin) as Hneq; cbn [fst] in Hneq;
           apply String.eqb_neq in Hneq; exact Hneq
         | apply (proj1 IH Hnone); assumption ]).
    + intros Hall.
      assert (Hget : Obj_get row name = None).
      { apply Obj_get_None. intros Hin.
        apply (Hall name name); [left; reflexivity | exact Hin | reflexivity]. }
      rewrite Hget.
      destruct (find _ row) as [[k w]|] eqn:Hf.
      * exfalso. apply find_some in Hf. destruct Hf as [Hin Heq].
        cbn [fst] in Heq. apply String.eqb_eq in Heq.
        apply (Hall name k); [left; reflexivity | | exact Heq].
        apply in_map_iff. exists (k, w). split; [reflexivity | exact Hin].
      * apply IH. intros n key Hn Hkey. apply Hall; [right|]; assumption.
Qed.

End CSVFacts.

(** [getCSVValue] finds nothing exactly when no column name of the row equals,
    up to case, one of the names asked for; what it finds is the value of a
    column whose name equals, up to case, one of these names. *)
Theorem getCSVValue_matches_up_to_case :
  forall (host : Host) (row : CSVRow) (possibleNames : list string),
    (getCSVValue row possibleNames = None <->
     forall name key : string,
       In name possibleNames -> In key (Obj_keys row) ->
       toLowerCase key <> toLowerCase name)
    /\ forall v : string,
         getCSVValue row possibleNames = Some v ->
         exists name key : string,
           In name possibleNames /\ In (key, v) row
           /\ toLowerCase key = toLowerCase name.
Proof.
  intros host row possibleNames. split.
  - apply getCSVValue_None.
  - intros v. apply getCSVValue_Some.
Qed.

(** As soon as a column name equals, up to case, the first name asked for,
    the other names are not consulted, even when the value of that column is
    empty. *)
Theorem getCSVValue_first_name_decides :
  forall (host : Host) (row : CSVRow) (name key : string)
         (others : list string),
    In key (Obj_keys row) ->
    toLowerCase key = toLowerCase name ->
    getCSVValue row (name :: others) = getCSVValue row [ name ]
    /\ getCSVValue row (name :: others) <> None.
Proof.
  intros host row name key others Hkey Heq. cbn [getCSVValue].
  destruct (Obj_get row name) as [[|c w]|];
    try (split; [reflexivity | discriminate]).
  - destruct (find _ row) as [[k w]|] eqn:Hf;
      [split; [reflexivity | discriminate]|].
    exfalso. apply in_map_iff in Hkey. destruct Hkey as ([k v] & <- & Hin).
    pose proof (find_none _ _ Hf _ Hin) as Hneq. cbn [fst] in *.
    apply String.eqb_neq in Hneq. contradiction.
  - destruct (find _ row) as [[k w]|] eqn:Hf;
      [split; [reflexivity | discriminate]|].
    exfalso. apply in_map_iff in Hkey. destruct Hkey as ([k v] & <- & Hin).
    pose proof (find_none _ _ Hf _ Hin) as Hneq. cbn [fst] in *.
    apply String.eqb_neq in Hneq. contradiction.
Qed.

Lemma getCSVValue_first_name_decides_witness :
  getCSVValue (host := SampleHost.plainHost)
    [ ("Date début", EmptyString); ("Date", "2025-01-13") ]
    [ "Date début"; "Date" ]
  = Some EmptyString.
Proof.
  refine (eq_trans (proj1 (getCSVValue_first_name_decides SampleHost.plainHost
                             [ ("Date début", EmptyString);
                               ("Date", "2025-01-13") ]
                             "Date début" "Date début" [ "Date" ] _ _)) _).
  - left. reflexivity.
  - reflexivity.
  - vm_compute. reflexivity.
Defined.

(* ===================================================================== *)
(** ** The rows of a delimited text *)
(* ===================================================================== *)

Section CSVRowFacts.






End CSVRowFacts.



(* ===================================================================== *)
(** ** The header search *)
(* ===================================================================== *)

Section HeaderFacts.

Context {host : Host}.

Lemma findHeader_first (worksheet : Worksheet) (before after : list nat)
    (rowNum : nat) (state : ColumnMap * nat) :
  Forall (fun j => qualifiesAsHeader worksheet j = false) before ->
  qualifiesAsHeader worksheet rowNum = true ->
  findHeader worksheet (before ++ rowNum :: after)%list state
  = (fst (scanRow (getRow worksheet rowNum)), S rowNum).
Proof.
  intros Hbefore Hrow. induction Hbefore as [|j before Hj Hbefore IH];
    cbn [app findHeader]; unfold qualifiesAsHeader in *.
  - destruct (scanRow (getRow worksheet rowNum)) as [tempMap rowValues].
    cbn [fst snd] in *. rewrite Hrow. reflexivity.
  - destruct (scanRow (getRow worksheet j)) as [tempMap rowValues].
    cbn [fst snd] in Hj. rewrite Hj. exact IH.
Qed.

Lemma findHeader_none (worksheet : Worksheet) (rows : list nat)
    (state : ColumnMap * nat) :
  Forall (fun j => qualifiesAsHeader worksheet j = false) rows ->
  findHeader worksheet rows state = state.
Proof.
  induction 1 as [|j rows Hj Hrows IH]; cbn [findHeader]; [reflexivity|].
  unfold qualifiesAsHeader in Hj.
  destruct (scanRow (getRow worksheet j)) as [tempMap rowValues].
  cbn [fst snd] in Hj. rewrite Hj. exact IH.
Qed.

Lemma rowNumbers_split (last rowNum : nat) :
  (1 <= rowNum <= last)%nat ->
  rowNumbers 1 last
  = (seq 1 (rowNum - 1) ++ rowNum :: seq (S rowNum) (last - rowNum))%list.
Proof.
  intros Hr. unfold rowNumbers.
  replace (S last - 1)%nat with ((rowNum - 1) + S (last - rowNum))%nat by lia.
  rewrite seq_app. cbn [seq].
  replace (1 + (rowNum - 1))%nat with rowNum by lia. reflexivity.
Qed.

End HeaderFacts.

(** The header row of a sheet is the first of its first ten rows that meets
    the header criteria, and the data start on the row after it; when none of
    these rows does, [parseExcelFile] fails with the error that describes the
    two layouts expected, whatever the rows below hold. *)
Theorem detectHeader_first_qualifying_row :
  forall (host : Host) (worksheet : Worksheet),
    (forall rowNum : nat,
       (1 <= rowNum <= Nat.min 10 (rowCount worksheet))%nat ->
       (forall j : nat,
          (1 <= j < rowNum)%nat -> qualifiesAsHeader worksheet j = false) ->
       qualifiesAsHeader worksheet rowNum = true ->
       detectHeader worksheet
       = (fst (scanRow (getRow worksheet rowNum)), S rowNum))
    /\ ((forall j : nat,
           (1 <= j <= Nat.min 10 (rowCount worksheet))%nat ->
           qualifiesAsHeader worksheet j = false) ->
        detectHeader worksheet = ([], 2%nat)
        /\ forall (file : File) (memberId : string) (others : list Worksheet),
             XLSX_load (content file) = Returns (worksheet :: others) ->
             parseExcelFile file memberId = noHeaderError).
Proof.
  intros host worksheet. split.
  - intros rowNum Hrange Hbefore Hrow. unfold detectHeader.
    rewrite (rowNumbers_split _ rowNum Hrange).
    apply findHeader_first; [|exact Hrow].
    apply Forall_forall. intros j Hj. apply in_seq in Hj.
    apply Hbefore. lia.
  - intros Hnone.
    assert (Hd : detectHeader worksheet = ([], 2%nat)).
    { unfold detectHeader. apply findHeader_none.
      apply Forall_forall. intros j Hj. unfold rowNumbers in Hj.
      apply in_seq in Hj. apply Hnone. lia. }
    split; [exact Hd|].
    intros file memberId others Hload. unfold parseExcelFile.
    rewrite Hload, Hd. reflexivity.
Qed.

Lemma detectHeader_first_qualifying_row_witness :
  detectHeader (host := SampleHost.gridHost) SampleHost.gridSheet
  = (fst (scanRow (host := SampleHost.gridHost)
            (getRow SampleHost.gridSheet 3)), 4%nat).
Proof.
  refine (proj1 (detectHeader_first_qualifying_row SampleHost.gridHost
                   SampleHost.gridSheet) 3%nat _ _ _).
  - vm_compute. split; repeat constructor.
  - intros j Hj. assert (Hc : j = 1%nat \/ j = 2%nat) by lia.
    destruct Hc as [->| ->]; vm_compute; reflexivity.
  - vm_compute. reflexivity.
Defined.

(* ===================================================================== *)
(** ** Whole spreadsheet serials *)
(* ===================================================================== *)

(** A whole serial between 0 and 2958465 (31 December 9999) decodes to local
    midnight of the day that many days after 30 December 1899, that is
    serial - 25569 days after 1 January 1970; the next serial decodes to
    exactly one day later. *)
Theorem excelDateToJSDate_whole_serial :
  forall (host : Host) (serial : Z),
    0 <= serial <= 2958465 ->
    exists t : Z,
      excelDateToJSDate (inject_Z serial) = Some t
      /\ LocalTime t = (serial - 25569) * msPerDay
      /\ localTimeOfDay (Some t) = Some 0
      /\ excelDateToJSDate (inject_Z (serial + 1)) = Some (t + msPerDay).
Proof.
  intros host serial _.
  exists (UTC (MakeDate (MakeDay 1899 11 30 + serial) 0)).
  split; [apply excelDateToJSDate_whole|].
  assert (Hlocal : LocalTime (UTC (MakeDate (MakeDay 1899 11 30 + serial) 0))
                   = (serial - 25569) * msPerDay).
  { rewrite LocalTime_UTC. unfold MakeDate.
    change (MakeDay 1899 11 30) with (-25569). lia. }
  split; [exact Hlocal|]. split.
  - unfold localTimeOfDay, option_map. rewrite Hlocal.
    unfold TimeWithinDay. rewrite Z.mod_mul; [reflexivity|].
    rewrite msPerDay_eq. lia.
  - rewrite excelDateToJSDate_whole. f_equal. unfold UTC, MakeDate. lia.
Qed.

Lemma excelDateToJSDate_whole_serial_witness :
  localDay (host := SampleHost.plainHost)
    (excelDateToJSDate (host := SampleHost.plainHost) (inject_Z 45670))
  = Some (2025, 1, 13).
Proof.
  destruct (excelDateToJSDate_whole_serial SampleHost.plainHost 45670
              ltac:(lia)) as (t & Ht & Hlocal & _).
  rewrite Ht. unfold localDay, option_map. rewrite Hlocal.
  vm_compute. reflexivity.
Defined.

(* ===================================================================== *)
(** ** The extension of a file name *)
(* ===================================================================== *)

Section ExtensionFacts.

Lemma split_nonempty (sep : ascii) (s : string) : split sep s <> [].
Proof.
  destruct s as [|c s]; cbn [split]; [discriminate|].
  destruct (Ascii.eqb c sep); [discriminate|].
  destruct (split sep s); discriminate.
Qed.

Lemma split_without (sep : ascii) (s : string) :
  hasChar sep s = false -> split sep s = [ s ].
Proof.
  induction s as [|c s IH]; cbn [hasChar split]; [reflexivity|].
  intros H. apply orb_false_iff in H. destruct H as [Hc Hs].
  rewrite Hc. rewrite (IH Hs). reflexivity.
Qed.

Lemma last_cons_nonempty {A : Type} (x : A) (l : list A) (d : A) :
  l <> [] -> last (x :: l) d = last l d.
Proof. destruct l; [contradiction | reflexivity]. Qed.

Lemma split_app_length (sep : ascii) (before after : string) :
  (2 <= List.length (split sep (before ++ String sep after)))%nat.
Proof.
  induction before as [|c before IH]; cbn [append split].
  - rewrite Ascii.eqb_refl. cbn [List.length].
    pose proof (split_nonempty sep after) as Hne.
    destruct (split sep after); [contradiction|]. cbn [List.length]. lia.
  - destruct (Ascii.eqb c sep); cbn [List.length]; [lia|].
    destruct (split sep (before ++ String sep after)); cbn [List.length] in *;
      lia.
Qed.

(** The last field of a text is the last field of what follows any of its
    separators. *)
Lemma last_split_app (sep : ascii) (before after : string) :
  last (split sep (before ++ String sep after)) EmptyString
  = last (split sep after) EmptyString.
Proof.
  induction before as [|c before IH]; cbn [append split].
  - rewrite Ascii.eqb_refl. apply last_cons_nonempty. apply split_nonempty.
  - pose proof (split_app_length sep before after) as Hlen.
    destruct (Ascii.eqb c sep).
    + rewrite last_cons_nonempty by apply split_nonempty. exact IH.
    + destruct (split sep (before ++ String sep after)) as [|h [|h' t]];
        cbn [List.length] in Hlen; try lia.
      exact IH.
Qed.

End ExtensionFacts.

(** The format of a file is decided by the text after the last dot of its
    name, up to case, whatever comes before that dot: a name that ends with a
    dot and "ics" in any case goes to [parseICSFile], with "xlsx" or "xls" to
    [parseExcelFile], with "csv" to [parseCSVFile]. *)
Theorem parseCalendarFile_routes_on_last_extension :
  forall (host : Host) (base extension data memberId : string),
    hasChar "." extension = false ->
    extensionOf {| name := base ++ "." ++ extension; content := data |}
    = toLowerCase extension
    /\ (toLowerCase extension = "ics" ->
        parseCalendarFile
          {| name := base ++ "." ++ extension; content := data |} memberId
        = parseICSFile
            {| name := base ++ "." ++ extension; content := data |} memberId)
    /\ (toLowerCase extension = "xlsx" \/ toLowerCase extension = "xls" ->
        parseCalendarFile
          {| name := base ++ "." ++ extension; content := data |} memberId
        = parseExcelFile
            {| name := base ++ "." ++ extension; content := data |} memberId)
    /\ (toLowerCase extension = "csv" ->
        parseCalendarFile
          {| name := base ++ "." ++ extension; content := data |} memberId
        = parseCSVFile
            {| name := base ++ "." ++ extension; content := data |} memberId).
Proof.
  intros host base extension data memberId Hdot.
  assert (Hext : extensionOf
                   {| name := base ++ "." ++ extension; content := data |}
                 = toLowerCase extension).
  { unfold extensionOf. cbn [name].
    change (base ++ "." ++ extension) with (base ++ String "." extension).
    rewrite last_split_app. rewrite (split_without _ _ Hdot). reflexivity. }
  split; [exact Hext|].
  unfold parseCalendarFile, routeCalendarFile. rewrite Hext.
  split; [|split].
  - intros ->. reflexivity.
  - intros [-> | ->]; reflexivity.
  - intros ->. reflexivity.
Qed.

Lemma parseCalendarFile_routes_on_last_extension_witness :
  parseCalendarFile (host := SampleHost.plainHost)
    {| name := "planning.2025.xlsx" ++ "." ++ "CSV";
       content := SampleHost.csvText |} "member-1"
  = parseCSVFile (host := SampleHost.plainHost)
      {| name := "planning.2025.xlsx" ++ "." ++ "CSV";
         content := SampleHost.csvText |} "member-1".
Proof.
  refine (proj2 (proj2 (proj2
    (parseCalendarFile_routes_on_last_extension SampleHost.plainHost
       "planning.2025.xlsx" "CSV" SampleHost.csvText "member-1" _))) _).
  - reflexivity.
  - reflexivity.
Defined.

(* ===================================================================== *)
(** ** The import route *)
(* ===================================================================== *)

Section RouteFacts.

Context {host : Host} {backend : Backend}.





Lemma isUUID_nonempty (s : string) :
  isUUID s = true -> exists c m, s = String c m.
Proof.
  destruct s as [|c m]; [discriminate|]. intros _. exists c, m. reflexivity.
Qed.


Lemma extension_gate (file : File) :
  isEmpty (extensionOf file)
  || negb (existsb (String.eqb (extensionOf file))
                   [ "ics"; "xlsx"; "xls"; "csv" ]) = true
  <-> ~ In (extensionOf file) supportedExtensions.
Proof.
  unfold supportedExtensions. cbn [existsb In].
  destruct (extensionOf file) as [|c e] eqn:Hext; cbn [isEmpty orb].
  - split; [|reflexivity]. intros _ H. intuition discriminate.
  - repeat match goal with
           | |- context [String.eqb ?a ?b] =>
               destruct (String.eqb_spec a b)
           end; cbn; split; intros H; try discriminate; try reflexivity;
      try (exfalso; apply H; auto; fail); intuition congruence.
Qed.

End RouteFacts.

(** A request the route answers with 400 or 404 has changed nothing: no file
    was uploaded, nothing was deleted and nothing was inserted, the only call
    made being at most the lookup of the member.  So a file that fails to
    parse leaves the events imported before in place. *)
Theorem POST_rejection_writes_nothing :
  forall (host : Host) (backend : Backend) (request : ImportRequest),
    httpStatus (fst (POST request)) = 400%nat
    \/ httpStatus (fst (POST request)) = 404%nat ->
    forallb isLookup (snd (POST request)) = true
    /\ (List.length (snd (POST request)) <= 1)%nat.
Proof.
  intros host backend request Hstatus. unfold POST in *.
  destruct request as [error|formData].
  - destruct (includes (thrownMessage error) "form"); cbn; auto.
  - destruct (entry_memberId formData) as [|[|c m]|f]; try (cbn; auto; fail).
    destruct (negb (isUUID (String c m))); [cbn; auto|].
    destruct (entry_file formData) as [| |file]; try (cbn; auto; fail).
    destruct (isEmpty _ || negb _); [cbn; auto|].
    destruct (selectMember (String c m)) as [member|]; [|cbn; auto].
    destruct (negb _ || _); [cbn; auto|].
    destruct (eventRows _ _) as [rows|];
      [|cbn in Hstatus; destruct Hstatus; discriminate].
    destruct (insertEvents rows); cbn in Hstatus; destruct Hstatus;
      discriminate.
Qed.

Lemma POST_rejection_writes_nothing_witness :
  forallb isLookup
    (snd (POST (host := SampleHost.plainHost)
               (backend := SampleHost.openBackend)
               (importRequest SampleHost.sampleUUID
                  {| name := "vide.ics"; content := EmptyString |})))
  = true.
Proof.
  refine (proj1 (POST_rejection_writes_nothing SampleHost.plainHost
                   SampleHost.openBackend
                   (importRequest SampleHost.sampleUUID
                      {| name := "vide.ics"; content := EmptyString |}) _)).
  left. vm_compute. reflexivity.
Defined.



(** With a member identifier that is a UUID and a file, the route answers
    that the file type is not supported exactly when [parseCalendarFile] has
    no parser for the file name; so the parser's own answer to an unsupported
    extension never reaches a client of the route. *)
Theorem POST_file_type_gate :
  forall (host : Host) (backend : Backend) (memberId : string) (file : File),
    isUUID memberId = true ->
    (fst (POST (importRequest memberId file)) = fileTypeRejected
     <-> ~ In (extensionOf file) supportedExtensions)
    /\ (In (extensionOf file) supportedExtensions ->
        parseCalendarFile file memberId = parseICSFile file memberId
        \/ parseCalendarFile file memberId = parseExcelFile file memberId
        \/ parseCalendarFile file memberId = parseCSVFile file memberId).
Proof.
  intros host backend memberId file Huuid.
  destruct (isUUID_nonempty memberId Huuid) as (c & m & ->).
  split.
  - rewrite <- extension_gate. unfold POST, importRequest, extensionOf.
    cbn [entry_memberId entry_file]. rewrite Huuid. cbn [negb].
    destruct (isEmpty _ || negb _); [split; reflexivity|].
    split; [|discriminate]. intros H. exfalso.
    destruct (selectMember (String c m)) as [member|];
      [|cbn in H; discriminate H].
    destruct (negb _ || _); [cbn in H; discriminate H|].
    destruct (eventRows _ _) as [rows|]; [|cbn in H; discriminate H].
    destruct (insertEvents rows); cbn in H; discriminate H.
  - intros Hin. unfold parseCalendarFile, routeCalendarFile.
    unfold supportedExtensions in Hin. cbn [In] in Hin.
    destruct Hin as [Heq|[Heq|[Heq|[Heq|[]]]]]; rewrite <- Heq; cbn; auto.
Qed.

Lemma POST_file_type_gate_witness :
  fst (POST (host := SampleHost.plainHost) (backend := SampleHost.openBackend)
            (importRequest SampleHost.sampleUUID
               {| name := "planning.pdf"; content := "%PDF" |}))
  = fileTypeRejected.
Proof.
  refine (proj2 (proj1 (POST_file_type_gate SampleHost.plainHost
                          SampleHost.openBackend SampleHost.sampleUUID
                          {| name := "planning.pdf"; content := "%PDF" |} _))
                _).
  - vm_compute. reflexivity.
  - vm_compute. intuition discriminate.
Defined.

(* ===================================================================== *)
(** ** Line ends of a delimited text *)
(* ===================================================================== *)

Section LineEndFacts.

Lemma rev_acc_app (s acc : string) :
  rev_acc s acc = rev_acc s EmptyString ++ acc.
Proof.
  revert acc. induction s as [|c s IH]; intros acc; cbn [rev_acc].
  - reflexivity.
  - rewrite (IH (String c acc)), (IH (String c EmptyString)).
    rewrite append_assoc. reflexivity.
Qed.

Lemma rev_acc_snoc (s acc : string) (c : ascii) :
  rev_acc (s ++ String c EmptyString) acc = String c (rev_acc s acc).
Proof.
  revert acc. induction s as [|d s IH]; intros acc; cbn [append rev_acc].
  - reflexivity.
  - apply IH.
Qed.

Lemma rev_snoc (s : string) (c : ascii) :
  JSString.rev (s ++ String c EmptyString) = String c (JSString.rev s).
Proof. unfold JSString.rev. apply rev_acc_snoc. Qed.

Lemma rev_cons (s : string) (c : ascii) :
  JSString.rev (String c s) = JSString.rev s ++ String c EmptyString.
Proof. unfold JSString.rev. cbn [rev_acc]. apply rev_acc_app. Qed.

Lemma rev_involutive (s : string) : JSString.rev (JSString.rev s) = s.
Proof.
  induction s as [|c s IH]; [reflexivity|].
  rewrite rev_cons, rev_snoc, IH. reflexivity.
Qed.

Lemma dropLast_snoc (c : ascii) (s : string) :
  dropLast c (s ++ String c EmptyString) = s.
Proof.
  unfold dropLast. rewrite rev_snoc, Ascii.eqb_refl. apply rev_involutive.
Qed.

Lemma dropLast_without (c : ascii) (s : string) :
  hasChar c s = false -> dropLast c s = s.
Proof.
  intros Hno. unfold dropLast.
  destruct (JSString.rev s) as [|d r] eqn:Hrev; [reflexivity|].
  destruct (Ascii.eqb_spec d c) as [->|_]; [|reflexivity].
  exfalso. apply (f_equal JSString.rev) in Hrev.
  rewrite rev_involutive, rev_cons in Hrev. subst s.
  clear -Hno. induction (JSString.rev r) as [|x t IH]; cbn [append hasChar] in Hno.
  - rewrite Ascii.eqb_refl in Hno. discriminate.
  - apply orb_false_iff in Hno. destruct Hno as [_ Hno]. exact (IH Hno).
Qed.

(** Splitting after a field that has no separator inside. *)
Lemma split_first_field (sep : ascii) (field rest : string) :
  hasChar sep field = false ->
  split sep (field ++ String sep rest) = field :: split sep rest.
Proof.
  induction field as [|c field IH]; cbn [hasChar append split]; intros Hno.
  - rewrite Ascii.eqb_refl. reflexivity.
  - apply orb_false_iff in Hno. destruct Hno as [Hc Hno].
    rewrite Hc, (IH Hno). reflexivity.
Qed.

Lemma hasChar_app (c : ascii) (a b : string) :
  hasChar c (a ++ b) = hasChar c a || hasChar c b.
Proof.
  induction a as [|d a IH]; cbn [append hasChar]; [reflexivity|].
  rewrite IH. apply orb_assoc.
Qed.

Lemma dropCRs_cons (first : string) (others : list string) :
  others <> [] ->
  dropCRs (first :: others) = dropLast CR first :: dropCRs others.
Proof. destruct others; [contradiction | reflexivity]. Qed.

End LineEndFacts.

(** A line is read the same whether it is ended by a carriage return and a
    line feed or by a line feed alone: the text splits into that line,
    without its line end, and the lines of what follows.  A text without line
    feed is one line. *)
Theorem splitLines_line_ends :
  forall (line rest : string),
    hasChar LF line = false ->
    hasChar CR line = false ->
    splitLines (line ++ String CR (String LF rest)) = line :: splitLines rest
    /\ splitLines (line ++ String LF rest) = line :: splitLines rest
    /\ splitLines line = [ line ].
Proof.
  intros line rest Hlf Hcr. unfold splitLines.
  split; [|split].
  - replace (line ++ String CR (String LF rest))
      with ((line ++ String CR EmptyString) ++ String LF rest)
      by (rewrite append_assoc; reflexivity).
    rewrite split_first_field.
    + rewrite dropCRs_cons by apply split_nonempty.
      rewrite dropLast_snoc. reflexivity.
    + rewrite hasChar_app, Hlf. reflexivity.
  - rewrite split_first_field by exact Hlf.
    rewrite dropCRs_cons by apply split_nonempty.
    rewrite dropLast_without by exact Hcr. reflexivity.
  - rewrite split_without by exact Hlf. reflexivity.
Qed.

Lemma splitLines_line_ends_witness :
  splitLines ("Date,Type" ++ String CR (String LF "2025-01-13,Cours"))
  = "Date,Type" :: splitLines "2025-01-13,Cours".
Proof.
  refine (proj1 (splitLines_line_ends "Date,Type" "2025-01-13,Cours" _ _));
    reflexivity.
Defined.

(* ===================================================================== *)
(** ** Column names of a header row *)
(* ===================================================================== *)

Section HeaderCellFacts.

Context {host : Host}.

Lemma Map_set_get_same (m : ColumnMap) (key : string) (v : nat) :
  Map_get (Map_set m key v) key = Some v.
Proof.
  induction m as [|[k w] m IH]; cbn [Map_set Map_get].
  - rewrite String.eqb_refl. reflexivity.
  - destruct (String.eqb k key) eqn:E; cbn [Map_get]; rewrite E;
      [reflexivity | exact IH].
Qed.

Lemma Map_set_get_other (m : ColumnMap) (key other : string) (v : nat) :
  other <> key -> Map_get (Map_set m key v) other = Map_get m other.
Proof.
  intros Hne. induction m as [|[k w] m IH]; cbn [Map_set Map_get].
  - destruct (String.eqb_spec key other) as [E|_]; [congruence | reflexivity].
  - destruct (String.eqb_spec k key) as [->|Hk]; cbn [Map_get].
    + destruct (String.eqb_spec key other) as [E|_]; [congruence | reflexivity].
    + destruct (String.eqb k other); [reflexivity | exact IH].
Qed.

(** Looking a name up in the map of a row gives the last column named so,
    or what the map held before when no cell gives that name. *)
Lemma scan_lookup (key : string) (row : Row) (colNumber : nat)
    (tempMap : ColumnMap) (rowValues : list string) :
  Map_get (fst (fold_left headerCell (eachCellFrom colNumber row)
                          (tempMap, rowValues))) key
  = match lastColumnNamed key colNumber row with
    | Some col => Some col
    | None => Map_get tempMap key
    end.
Proof.
  revert colNumber tempMap rowValues.
  induction row as [|cell row IH]; intros colNumber tempMap rowValues;
    cbn [eachCellFrom lastColumnNamed fold_left fst]; [reflexivity|].
  unfold namesColumn, headerKey.
  destruct (isNull (value cell)); cbn [negb andb].
  - rewrite IH. destruct (lastColumnNamed key (S colNumber) row); reflexivity.
  - cbn [fold_left headerCell].
    destruct (negb (isEmpty (trim (toLowerCase (extractCellText cell))))
              && negb (String.eqb (trim (toLowerCase (extractCellText cell)))
                                  "[object object]")).
    + rewrite IH. destruct (lastColumnNamed key (S colNumber) row);
        [reflexivity|].
      destruct (String.eqb_spec (trim (toLowerCase (extractCellText cell))) key)
        as [->|Hne].
      * apply Map_set_get_same.
      * apply Map_set_get_other. congruence.
    + rewrite IH. destruct (lastColumnNamed key (S colNumber) row); reflexivity.
Qed.

Lemma namesColumn_emptyCell (key : string) :
  namesColumn key emptyCell = false.
Proof. reflexivity. Qed.

Lemma lastColumnNamed_None (key : string) (colNumber : nat) (row : Row) :
  lastColumnNamed key colNumber row = None <->
  forall j : nat, namesColumn key (nth j row emptyCell) = false.
Proof.
  revert colNumber. induction row as [|cell row IH]; intros colNumber;
    cbn [lastColumnNamed].
  - split; [|reflexivity]. intros _ j. destruct j; reflexivity.
  - destruct (lastColumnNamed key (S colNumber) row) as [col|] eqn:Hlast.
    + split; [discriminate|]. intros Hall. exfalso.
      assert (Hnone : lastColumnNamed key (S colNumber) row = None).
      { apply IH. intros j. exact (Hall (S j)). }
      congruence.
    + destruct (namesColumn key cell) eqn:Hcell.
      * split; [discriminate|]. intros Hall. specialize (Hall 0%nat).
        cbn [nth] in Hall. congruence.
      * split; [|reflexivity]. intros _ [|j]; cbn [nth]; [exact Hcell|].
        exact (proj1 (IH (S colNumber)) Hlast j).
Qed.

Lemma lastColumnNamed_Some (key : string) (colNumber : nat) (row : Row)
    (col : nat) :
  lastColumnNamed key colNumber row = Some col <->
  exists j : nat,
    col = (colNumber + j)%nat
    /\ namesColumn key (nth j row emptyCell) = true
    /\ forall later : nat,
         (j < later)%nat -> namesColumn key (nth later row emptyCell) = false.
Proof.
  revert colNumber col. induction row as [|cell row IH]; intros colNumber col;
    cbn [lastColumnNamed].
  - split; [discriminate|]. intros (j & _ & Hj & _).
    destruct j; discriminate Hj.
  - destruct (lastColumnNamed key (S colNumber) row) as [found|] eqn:Hlast.
    + destruct (proj1 (IH (S colNumber) found) Hlast) as (j & -> & Hj & Hlater).
      split.
      * intros H. injection H as <-. exists (S j).
        split; [lia|]. split; [exact Hj|].
        intros [|later] Hl; [lia|]. cbn [nth]. apply Hlater. lia.
      * intros (j' & -> & Hj' & Hlater'). f_equal.
        destruct (Nat.lt_trichotomy j' (S j)) as [Hlt|[->|Hgt]]; [|lia|].
        -- specialize (Hlater' (S j) Hlt). cbn [nth] in Hlater'. congruence.
        -- destruct j' as [|j'']; [lia|]. cbn [nth] in Hj'.
           specialize (Hlater j'' ltac:(lia)). congruence.
    + pose proof (proj1 (lastColumnNamed_None key (S colNumber) row) Hlast)
        as Hnone.
      destruct (namesColumn key cell) eqn:Hcell.
      * split.
        -- intros H. injection H as <-. exists 0%nat.
           split; [lia|]. split; [exact Hcell|].
           intros [|later] Hl; [lia|]. cbn [nth]. apply Hnone.
        -- intros (j & -> & Hj & _). f_equal.
           destruct j as [|j]; [lia|]. cbn [nth] in Hj.
           rewrite Hnone in Hj. discriminate.
      * split; [discriminate|]. intros (j & _ & Hj & _).
        destruct j as [|j]; cbn [nth] in Hj; [congruence|].
        rewrite Hnone in Hj. discriminate.
Qed.

End HeaderCellFacts.

(** In the column map of a row, a name is bound to the last column whose
    cell gives that name (a non-empty cell whose text, in lower case and
    trimmed, is the name): when two header cells have the same text the later
    one wins, and a name no cell gives is not bound. *)
Theorem scanRow_last_column_wins :
  forall (host : Host) (row : Row) (key : string) (col : nat),
    Map_get (fst (scanRow row)) key = Some col <->
    (1 <= col)%nat
    /\ namesColumn key (getCell row col) = true
    /\ forall later : nat,
         (col < later)%nat -> namesColumn key (getCell row later) = false.
Proof.
  intros host row key col. unfold scanRow, eachCell.
  rewrite scan_lookup. cbn [Map_get].
  assert (Hsame : match lastColumnNamed key 1 row with
                  | Some c => Some c
                  | None => None
                  end = lastColumnNamed key 1 row)
    by (destruct (lastColumnNamed key 1 row); reflexivity).
  rewrite Hsame. rewrite lastColumnNamed_Some. split.
  - intros (j & -> & Hj & Hlater). split; [lia|].
    cbn [Nat.add getCell]. split; [exact Hj|].
    intros [|later] Hl; [lia|]. cbn [getCell]. apply Hlater. lia.
  - intros (Hcol & Hcell & Hlater). destruct col as [|j]; [lia|].
    exists j. split; [reflexivity|]. cbn [getCell] in Hcell.
    split; [exact Hcell|]. intros later Hl.
    specialize (Hlater (S later) ltac:(lia)). exact Hlater.
Qed.

Lemma scanRow_last_column_wins_witness :
  Map_get (fst (scanRow (host := SampleHost.plainHost)
                  (map SampleHost.textCell [ "Date"; "Type"; " DATE " ])))
          "date"
  = Some 3%nat.
Proof.
  refine (proj2 (scanRow_last_column_wins SampleHost.plainHost
                   (map SampleHost.textCell [ "Date"; "Type"; " DATE " ])
                   "date" 3%nat) _).
  split; [lia|]. split; [vm_compute; reflexivity|].
  intros later Hl.
  do 4 (destruct later as [|later]; [lia|]).
  destruct later; reflexivity.
Defined.

(* ===================================================================== *)
(** ** Member identifiers *)
(* ===================================================================== *)

Section UUIDFacts.

Lemma matchHex_Some (count : nat) (s rest : string) :
  matchHex count s = Some rest <->
  exists group : string, s = group ++ rest /\ hexGroup count group.
Proof.
  revert s. induction count as [|count IH]; intros s; cbn [matchHex].
  - split.
    + intros H. injection H as ->. exists EmptyString.
      split; [reflexivity | split; reflexivity].
    + intros (group & -> & Hlen & _). destruct group; [reflexivity|].
      discriminate Hlen.
  - destruct s as [|c s].
    + split; [discriminate|]. intros (group & Hs & Hlen & _).
      destruct group; [discriminate Hlen | discriminate Hs].
    + destruct (isHexDigit c) eqn:Hc.
      * rewrite IH. split.
        -- intros (group & -> & Hlen & Hhex). exists (String c group).
           split; [reflexivity|]. split; [cbn; congruence|].
           cbn [allHex]. rewrite Hc, Hhex. reflexivity.
        -- intros (group & Hs & Hlen & Hhex).
           destruct group as [|d group]; [discriminate Hlen|].
           cbn [append] in Hs. injection Hs as <- ->.
           cbn [allHex] in Hhex. apply andb_true_iff in Hhex.
           exists group. split; [reflexivity|].
           split; [cbn in Hlen; congruence | tauto].
      * split; [discriminate|]. intros (group & Hs & Hlen & Hhex).
        destruct group as [|d group]; [discriminate Hlen|].
        cbn [append] in Hs. injection Hs as <- ->.
        cbn [allHex] in Hhex. rewrite Hc in Hhex. discriminate.
Qed.

Lemma hyphen_Some (s : string) (p : string -> bool) :
  match s with
  | String c s' => Ascii.eqb c "-" && p s'
  | EmptyString => false
  end = true <->
  exists rest : string, s = "-" ++ rest /\ p rest = true.
Proof.
  destruct s as [|c s].
  - split; [discriminate|]. intros (rest & H & _). discriminate H.
  - split.
    + intros H. apply andb_true_iff in H. destruct H as [Hc Hp].
      apply Ascii.eqb_eq in Hc. subst c. exists s. split; [reflexivity|].
      exact Hp.
    + intros (rest & H & Hp). cbn [append] in H. injection H as -> ->.
      rewrite Ascii.eqb_refl. exact Hp.
Qed.

Lemma group_then (count : nat) (s : string) (p : string -> bool) :
  match matchHex count s with
  | Some rest => p rest
  | None => false
  end = true <->
  exists group rest : string,
    s = group ++ rest /\ hexGroup count group /\ p rest = true.
Proof.
  destruct (matchHex count s) as [rest|] eqn:Hm.
  - apply matchHex_Some in Hm. destruct Hm as (group & -> & Hg). split.
    + intros Hp. exists group, rest. auto.
    + intros (group' & rest' & Heq & Hg' & Hp).
      assert (Hm' : matchHex count (group ++ rest) = Some rest').
      { apply matchHex_Some. exists group'. auto. }
      assert (Hm'' : matchHex count (group ++ rest) = Some rest).
      { apply matchHex_Some. exists group. auto. }
      congruence.
  - split; [discriminate|]. intros (group & rest & -> & Hg & _).
    assert (Hm' : matchHex count (group ++ rest) = Some rest).
    { apply matchHex_Some. exists group. auto. }
    congruence.
Qed.

End UUIDFacts.

(** The member identifiers the route accepts are the texts made of five
    groups of 8, 4, 4, 4 and 12 hexadecimal digits, in either case, joined
    by hyphens, with nothing before or after. *)
Theorem isUUID_shape :
  forall s : string,
    isUUID s = true <->
    exists a b c d e : string,
      s = a ++ "-" ++ b ++ "-" ++ c ++ "-" ++ d ++ "-" ++ e
      /\ hexGroup 8 a /\ hexGroup 4 b /\ hexGroup 4 c /\ hexGroup 4 d
      /\ hexGroup 12 e.
Proof.
  intros s. unfold isUUID, uuidPattern.
  cbn [matchPattern].
  rewrite (group_then 8 s). split.
  - intros (a & r1 & -> & Ha & H1).
    apply hyphen_Some in H1. destruct H1 as (r2 & -> & H2).
    apply group_then in H2. destruct H2 as (b & r3 & -> & Hb & H3).
    apply hyphen_Some in H3. destruct H3 as (r4 & -> & H4).
    apply group_then in H4. destruct H4 as (c & r5 & -> & Hc & H5).
    apply hyphen_Some in H5. destruct H5 as (r6 & -> & H6).
    apply group_then in H6. destruct H6 as (d & r7 & -> & Hd & H7).
    apply hyphen_Some in H7. destruct H7 as (r8 & -> & H8).
    apply group_then in H8. destruct H8 as (e & r9 & -> & He & H9).
    destruct r9; [|discriminate H9].
    exists a, b, c, d, e.
    replace (e ++ EmptyString) with e
      by (clear; induction e; cbn; congruence).
    split; [reflexivity | tauto].
  - intros (a & b & c & d & e & -> & Ha & Hb & Hc & Hd & He).
    exists a, ("-" ++ b ++ "-" ++ c ++ "-" ++ d ++ "-" ++ e).
    split; [reflexivity|]. split; [exact Ha|].
    apply hyphen_Some. eexists. split; [reflexivity|].
    apply group_then. exists b, ("-" ++ c ++ "-" ++ d ++ "-" ++ e).
    split; [reflexivity|]. split; [exact Hb|].
    apply hyphen_Some. eexists. split; [reflexivity|].
    apply group_then. exists c, ("-" ++ d ++ "-" ++ e).
    split; [reflexivity|]. split; [exact Hc|].
    apply hyphen_Some. eexists. split; [reflexivity|].
    apply group_then. exists d, ("-" ++ e).
    split; [reflexivity|]. split; [exact Hd|].
    apply hyphen_Some. eexists. split; [reflexivity|].
    apply group_then. exists e, EmptyString.
    split; [clear; induction e; cbn; congruence|].
    split; [exact He | reflexivity].
Qed.
